(** * Aeroterra: threshold classifiers and stakeholder views

    A shallow embedding of the dashboard code of the Aeroterra repository
    ([components/dashboard.py], [components/maps.py], [utils/map_utils.py])
    and the properties its specification states about it.

    - Python values are an inductive type [pyval]; a dictionary is a finite
      map from strings ([gmap string pyval]).
    - A Python [float] is modelled by its exact value: a rational, one of the
      two infinities, or NaN.  Python compares an [int] with a [float]
      exactly, so every comparison of the source is the order on these
      values.  Arithmetic on finite values is exact (rounding and overflow of
      binary64 are not modelled); special values follow IEEE 754.
    - Calls into Streamlit are recorded, in order, in a log of widgets; a
      Python exception ends the run and keeps the widgets emitted so far.
    - A folium map is the list of children added to it; the functions of
      [MapUtils] mutate the map they are given, which is modelled by passing
      the map through. *)

From Stdlib Require Import ZArith QArith Qabs Lqa String List Lia.
From stdpp Require Import gmap strings.

#[local] Set Warnings "-register-all".
#[local] Open Scope string_scope.
#[local] Open Scope list_scope.
#[local] Open Scope Z_scope.

(** ** Python values *)

Module Py.

Inductive pyfloat : Type :=
| FNaN
| FNegInf
| FFin (q : Q)
| FPosInf.

(** IEEE comparison: [None] when one side is NaN. *)
Definition f_cmp (a b : pyfloat) : option comparison :=
  match a, b with
  | FNaN, _ | _, FNaN => None
  | FNegInf, FNegInf => Some Eq
  | FNegInf, _ => Some Lt
  | _, FNegInf => Some Gt
  | FPosInf, FPosInf => Some Eq
  | FPosInf, _ => Some Gt
  | _, FPosInf => Some Lt
  | FFin x, FFin y => Some (x ?= y)%Q
  end.

Definition f_lt (a b : pyfloat) : bool :=
  match f_cmp a b with Some Lt => true | _ => false end.
Definition f_le (a b : pyfloat) : bool :=
  match f_cmp a b with Some Lt | Some Eq => true | _ => false end.
Definition f_gt (a b : pyfloat) : bool :=
  match f_cmp a b with Some Gt => true | _ => false end.
Definition f_ge (a b : pyfloat) : bool :=
  match f_cmp a b with Some Gt | Some Eq => true | _ => false end.

Definition f_neg (a : pyfloat) : pyfloat :=
  match a with
  | FNaN => FNaN
  | FNegInf => FPosInf
  | FPosInf => FNegInf
  | FFin x => FFin (- x)%Q
  end.

Definition f_abs (a : pyfloat) : pyfloat :=
  match a with
  | FNaN => FNaN
  | FNegInf | FPosInf => FPosInf
  | FFin x => FFin (Qabs x)
  end.

Definition f_add (a b : pyfloat) : pyfloat :=
  match a, b with
  | FNaN, _ | _, FNaN => FNaN
  | FPosInf, FNegInf | FNegInf, FPosInf => FNaN
  | FPosInf, _ | _, FPosInf => FPosInf
  | FNegInf, _ | _, FNegInf => FNegInf
  | FFin x, FFin y => FFin (x + y)%Q
  end.

Definition f_sub (a b : pyfloat) : pyfloat := f_add a (f_neg b).

(** An infinity times a finite value: NaN at zero, else by the sign. *)
Definition f_scale_inf (pos : bool) (y : Q) : pyfloat :=
  match (y ?= 0)%Q with
  | Eq => FNaN
  | Gt => if pos then FPosInf else FNegInf
  | Lt => if pos then FNegInf else FPosInf
  end.

Definition f_mul (a b : pyfloat) : pyfloat :=
  match a, b with
  | FNaN, _ | _, FNaN => FNaN
  | FPosInf, FPosInf | FNegInf, FNegInf => FPosInf
  | FPosInf, FNegInf | FNegInf, FPosInf => FNegInf
  | FPosInf, FFin y | FFin y, FPosInf => f_scale_inf true y
  | FNegInf, FFin y | FFin y, FNegInf => f_scale_inf false y
  | FFin x, FFin y => FFin (x * y)%Q
  end.

Inductive pyval : Type :=
| PNone
| PBool (b : bool)
| PInt (z : Z)
| PFloat (f : pyfloat)
| PStr (s : string)
| PDatetime (us : Z)
| PList (l : list pyval)
| PDict (d : gmap string pyval).

(** A [Dict] argument of the source. *)
Abbreviation dict := (gmap string pyval).

(** A finite float literal such as [12.926]. *)
Definition fl (q : Q) : pyval := PFloat (FFin q).

Inductive exn : Type :=
| TypeError
| KeyError (k : string)
| ValueError
| AttributeError.

Inductive result (A : Type) : Type :=
| Ok (a : A)
| Raise (e : exn).
Arguments Ok {A} a.
Arguments Raise {A} e.

#[export] Instance result_ret : MRet result := fun A a => Ok a.
#[export] Instance result_bind : MBind result := fun A B f r =>
  match r with
  | Ok a => f a
  | Raise e => Raise e
  end.

(** [bool] is a subclass of [int]. *)
Definition as_int (v : pyval) : option Z :=
  match v with
  | PBool b => Some (if b then 1 else 0)
  | PInt z => Some z
  | _ => None
  end.

(** The value of a number; [None] for what is not an [int] or a [float]. *)
Definition as_number (v : pyval) : option pyfloat :=
  match v with
  | PBool b => Some (FFin (if b then 1 else 0)%Q)
  | PInt z => Some (FFin (inject_Z z))
  | PFloat f => Some f
  | _ => None
  end.

(** [isinstance(v, (int, float))] *)
Definition is_number (v : pyval) : bool :=
  match as_number v with Some _ => true | None => false end.

(** [bool(v)] *)
Definition truthy (v : pyval) : bool :=
  match v with
  | PNone => false
  | PBool b => b
  | PInt z => negb (z =? 0)
  | PFloat (FFin q) => negb (Qeq_bool q 0)
  | PFloat _ => true
  | PStr s => negb (String.eqb s "")
  | PDatetime _ => true
  | PList l => match l with [] => false | _ => true end
  | PDict d => negb (Nat.eqb (size d) 0)
  end.

(** Ordering comparisons.  Every comparison of the source has a numeric
    literal on one side; a value that is not a number then raises
    [TypeError]. *)
Definition py_cmp (op : pyfloat -> pyfloat -> bool) (v w : pyval) : result bool :=
  match as_number v, as_number w with
  | Some a, Some b => Ok (op a b)
  | _, _ => Raise TypeError
  end.

Definition py_lt := py_cmp f_lt.
Definition py_le := py_cmp f_le.
Definition py_gt := py_cmp f_gt.
Definition py_ge := py_cmp f_ge.

(** Arithmetic of numbers: [int] with [int] stays an [int], anything with a
    [float] is a [float].  The source applies it to results of comparisons
    and subtractions only; a non-number raises [TypeError]. *)
Definition py_arith (iop : Z -> Z -> Z) (fop : pyfloat -> pyfloat -> pyfloat)
    (v w : pyval) : result pyval :=
  match as_int v, as_int w with
  | Some a, Some b => Ok (PInt (iop a b))
  | _, _ =>
      match as_number v, as_number w with
      | Some a, Some b => Ok (PFloat (fop a b))
      | _, _ => Raise TypeError
      end
  end.

Definition py_add := py_arith Z.add f_add.
Definition py_sub := py_arith Z.sub f_sub.
Definition py_mul := py_arith Z.mul f_mul.

(** [abs(v)] *)
Definition py_abs (v : pyval) : result pyval :=
  match v with
  | PBool b => Ok (PInt (if b then 1 else 0))
  | PInt z => Ok (PInt (Z.abs z))
  | PFloat f => Ok (PFloat (f_abs f))
  | _ => Raise TypeError
  end.

(** [max(a, b)]: the first argument unless the second is greater. *)
Definition py_max (a b : pyval) : result pyval :=
  c ← py_gt b a; mret (if c : bool then b else a).

(** [min(a, b)]: the first argument unless the second is smaller. *)
Definition py_min (a b : pyval) : result pyval :=
  c ← py_lt b a; mret (if c : bool then b else a).

(** [d.get(k, default)] *)
Definition dict_get (d : dict) (k : string) (dflt : pyval) : pyval :=
  default dflt (d !! k).

(** [v[k]] for a string key. *)
Definition py_getitem (v : pyval) (k : string) : result pyval :=
  match v with
  | PDict d =>
      match d !! k with
      | Some x => Ok x
      | None => Raise (KeyError k)
      end
  | _ => Raise TypeError
  end.

(** [if d:] for an [Optional[Dict]]: neither [None] nor empty. *)
Definition bundle_truthy (b : option dict) : bool :=
  match b with
  | Some d => truthy (PDict d)
  | None => false
  end.

(** Pieces of an f-string: literal text, [{v}], and [{v:spec}]. *)
Inductive frag : Type :=
| Lit (s : string)
| Val (v : pyval)
| ValF (spec : string) (v : pyval).

Definition fstr := list frag.

(** [{v:.4f}] and the like need a number ([datetime] reads the
    specification as a [strftime] pattern). *)
Definition fmt_float (spec : string) (v : pyval) : result frag :=
  match v with
  | PBool _ | PInt _ | PFloat _ | PDatetime _ => Ok (ValF spec v)
  | PStr _ => Raise ValueError
  | _ => Raise TypeError
  end.

(** [d.get(k)] on a value that may not be a dict. *)
Definition py_get (v : pyval) (k : string) : result pyval :=
  match v with
  | PDict d => Ok (dict_get d k PNone)
  | _ => Raise AttributeError
  end.

(** The elements a [for] loop sees. *)
Definition py_iter (v : pyval) : result (list pyval) :=
  match v with
  | PList l => Ok l
  | PDict d => Ok (PStr <$> (map_to_list d).*1)
  | PStr s => Ok ((fun c => PStr (String c EmptyString)) <$> list_ascii_of_string s)
  | _ => Raise TypeError
  end.

(** [s.title()] on ASCII text: the first letter of every word in upper
    case, the others in lower case. *)
Fixpoint title_from (prev_cased : bool) (s : string) : string :=
  match s with
  | EmptyString => EmptyString
  | String c r =>
      let n := Ascii.nat_of_ascii c in
      let lower := ((97 <=? n) && (n <=? 122))%nat in
      let upper := ((65 <=? n) && (n <=? 90))%nat in
      if lower || upper then
        String
          (if prev_cased then
             if upper then Ascii.ascii_of_nat (n + 32) else c
           else
             if lower then Ascii.ascii_of_nat (n - 32) else c)
          (title_from true r)
      else String c (title_from false r)
  end.

Definition title : string -> string := title_from false.

End Py.
Export Py.

(** ** folium: a map and the children added to it *)

Module Folium.

Record icon : Type := Icon {
  icon_color : string;
  icon_name : string;
  icon_prefix : string }.

(** [folium.Popup(html, max_width=w)], or a bare string given as popup. *)
Record popup : Type := Popup {
  popup_html : fstr;
  popup_max_width : option Z }.

Inductive child : Type :=
| TileLayer (tiles : string) (attr : option string) (name : string)
    (overlay control : bool)
| LayerControl
| Marker (location : pyval * pyval) (pop : popup) (tooltip : fstr) (ic : icon)
| CircleMarker (location : pyval * pyval) (radius : Z) (pop : popup)
    (tooltip : fstr) (color fillColor : string) (fillOpacity : Q)
    (weight : option Z)
| HeatMap (data : list (pyval * pyval * pyval)) (name : string) (radius blur : Z)
    (gradient : list (Q * string)).

Record map : Type := Map {
  map_location : pyval * pyval;
  zoom_start : Z;
  map_tiles : string;
  children : list child }.

(** [x.add_to(m)] *)
Definition add_to (c : child) (m : map) : map :=
  {| map_location := map_location m; zoom_start := zoom_start m;
     map_tiles := map_tiles m; children := children m ++ [c] |}.

(** Markers, circles and heat maps, as opposed to the base tiles and the
    layer control. *)
Definition is_overlay (c : child) : bool :=
  match c with
  | TileLayer _ _ _ _ _ | LayerControl => false
  | _ => true
  end.

End Folium.

(** ** pandas and plotly: the data handed to tables and charts *)

Module Pandas.

Record dataframe : Type := DataFrame {
  df_index : option (string * list pyval);
  df_columns : list (string * list pyval);
  df_styles : list (string * list string) }.

(** [pd.DataFrame(data)] for a dict of columns. *)
Definition of_columns (cols : list (string * list pyval)) : dataframe :=
  {| df_index := None; df_columns := cols; df_styles := [] |}.

(** [df.set_index(name)] *)
Definition set_index (name : string) (df : dataframe) : dataframe :=
  {| df_index :=
       match filter (fun c => c.1 = name) (df_columns df) with
       | c :: _ => Some c
       | [] => df_index df
       end;
     df_columns := filter (fun c => c.1 <> name) (df_columns df);
     df_styles := df_styles df |}.

(** [df.style.applymap(f, subset=[name])]: [f] on every cell of the column. *)
Definition style_applymap (f : pyval -> result string) (name : string)
    (df : dataframe) : result dataframe :=
  match filter (fun c => c.1 = name) (df_columns df) with
  | c :: _ =>
      css ← mapM f c.2;
      mret {| df_index := df_index df; df_columns := df_columns df;
              df_styles := df_styles df ++ [(name, css)] |}
  | [] => Raise (KeyError name)
  end.

(** A naive [datetime] is its number of microseconds since 1970-01-01
    00:00:00. *)
Definition usec_per_day : Z := 86400000000.

(** [timedelta(days=n)] *)
Definition timedelta_days (n : Z) : Z := n * usec_per_day.

(** [datetime.weekday()]: Monday is 0 and Sunday is 6; 1970-01-01 was a
    Thursday. *)
Definition weekday (t : Z) : Z := (t `div` usec_per_day + 3) `mod` 7.

(** [pd.date_range(start=s, end=e, freq='W')]: the weekly instants from the
    first Sunday at or after [s] (at the time of day of [s]) up to [e]. *)
Definition date_range_weekly (s e : Z) : list Z :=
  let first := s + ((6 - weekday s) `mod` 7) * usec_per_day in
  if e <? first then []
  else
    List.map (fun k => first + Z.of_nat k * (7 * usec_per_day))
      (seq 0 (S (Z.to_nat ((e - first) `div` (7 * usec_per_day))))).

End Pandas.

Module Plotly.

Inductive trace : Type :=
| Scatter (x y : list pyval) (name : string) (line_color : string)
| Bar (x y : list pyval) (name : string) (marker_color : string)
    (opacity : option Q)
| Line (x y : list pyval) (labels : list (string * string))
| Pie (values names : list pyval).

Record hline : Type := HLine {
  hline_y : Z;
  line_dash : string;
  line_color : string;
  annotation_text : string }.

Record figure : Type := Figure {
  traces : list trace;
  title : option string;
  xaxis_title : option string;
  yaxis_title : option string;
  hlines : list hline }.

(** [go.Figure()] *)
Definition empty : figure :=
  {| traces := []; title := None; xaxis_title := None; yaxis_title := None;
     hlines := [] |}.

Definition add_trace (t : trace) (fig : figure) : figure :=
  {| traces := traces fig ++ [t]; title := title fig;
     xaxis_title := xaxis_title fig; yaxis_title := yaxis_title fig;
     hlines := hlines fig |}.

Definition update_layout (t : option string) (xt yt : option string)
    (fig : figure) : figure :=
  {| traces := traces fig;
     title := from_option Some (title fig) t;
     xaxis_title := from_option Some (xaxis_title fig) xt;
     yaxis_title := from_option Some (yaxis_title fig) yt;
     hlines := hlines fig |}.

Definition add_hline (h : hline) (fig : figure) : figure :=
  {| traces := traces fig; title := title fig;
     xaxis_title := xaxis_title fig; yaxis_title := yaxis_title fig;
     hlines := hlines fig ++ [h] |}.

(** [px.line(x=.., y=.., title=.., labels=..)] *)
Definition px_line (x y : list pyval) (t : string)
    (labels : list (string * string)) : figure :=
  {| traces := [Line x y labels]; title := Some t; xaxis_title := None;
     yaxis_title := None; hlines := [] |}.

(** [px.pie(values=.., names=.., title=..)] *)
Definition px_pie (values names : list pyval) (t : string) : figure :=
  {| traces := [Pie values names]; title := Some t; xaxis_title := None;
     yaxis_title := None; hlines := [] |}.

End Plotly.

(** ** Streamlit: the log of widgets *)

Module St.

Inductive container : Type :=
| Main
| Col (n i : nat)
| Sidebar.

Inductive widget : Type :=
| WSubheader (text : fstr)
| WInfo (text : string)
| WWarning (text : string)
| WSuccess (text : string)
| WError (text : string)
| WWrite (text : fstr)
| WMetric (label : string) (value : fstr) (delta : option string)
| WColumns (n : nat)
| WDataframe (df : Pandas.dataframe) (use_container_width : bool)
| WPlotlyChart (fig : Plotly.figure) (use_container_width : bool)
| WFolium (m : Folium.map) (width height : Z).

Definition event : Type := container * widget.

(** A run: the widgets emitted, and how it ended. *)
Definition M (A : Type) : Type := list event * result A.

#[export] Instance M_ret : MRet M := fun A a => ([], Ok a).
#[export] Instance M_bind : MBind M := fun A B f m =>
  match m.2 with
  | Ok a => (m.1 ++ (f a).1, (f a).2)
  | Raise e => (m.1, Raise e)
  end.

(** A computation that touches no widget. *)
Definition lift {A} (r : result A) : M A := ([], r).

Definition emit_in (c : container) (w : widget) : M unit := ([(c, w)], Ok tt).
Definition emit : widget -> M unit := emit_in Main.

(** [with col:] sends the widgets of the block to the column. *)
Definition within {A} (c : container) (m : M A) : M A :=
  (List.map (fun e : event => (c, e.2)) m.1, m.2).

Definition subheader (s : fstr) : M unit := emit (WSubheader s).
Definition info (s : string) : M unit := emit (WInfo s).
Definition warning (s : string) : M unit := emit (WWarning s).
Definition success (s : string) : M unit := emit (WSuccess s).
Definition error (s : string) : M unit := emit (WError s).
Definition write (s : fstr) : M unit := emit (WWrite s).
Definition metric (label : string) (value : fstr) (delta : option string)
  : M unit := emit (WMetric label value delta).
Definition columns (n : nat) : M unit := emit (WColumns n).
Definition dataframe (df : Pandas.dataframe) : M unit :=
  emit (WDataframe df true).
Definition plotly_chart (fig : Plotly.figure) : M unit :=
  emit (WPlotlyChart fig true).

(** [if d:] around a block that uses the bundle. *)
Definition when_bundle (b : option dict) (body : dict -> M unit) : M unit :=
  match b with
  | Some d => if truthy (PDict d) then body d else mret tt
  | None => mret tt
  end.

End St.

(** ** components/dashboard.py *)

Module Dashboard.
Import St.

(** [b and isinstance(b.get(k), (int, float))], with the reading when the
    test holds. *)
Definition number_in (b : option dict) (k : string) : option pyval :=
  match b with
  | Some d =>
      if truthy (PDict d) && is_number (dict_get d k PNone)
      then Some (dict_get d k PNone) else None
  | None => None
  end.

(** [v and c]: [c] is evaluated only for a truthy [v]. *)
Definition py_and (v : pyval) (c : result bool) : result bool :=
  if truthy v then c else Ok false.

(** [for x in l: body] *)
Definition for_each {A} (l : list A) (body : A -> M unit) : M unit :=
  foldr (fun x k => body x;; k) (mret tt) l.

(** The comfort recommendation of [render_citizens_dashboard] (the block
    under [if isinstance(temp, (int, float))]). *)
Definition comfort_recommendation (temp : pyval) : M unit :=
  if is_number temp then
    hot ← lift (py_gt temp (PInt 35));
    if hot : bool then
      warning "🌡️ Very hot day! Stay hydrated and avoid outdoor activities during peak hours."
    else
      cool ← lift (py_lt temp (PInt 15));
      if cool : bool then
        info "🧥 Cool day! You might want to carry a light jacket."
      else
        success "😊 Pleasant weather for outdoor activities!"
  else mret tt.

(** The air-quality advice of [render_citizens_dashboard] (the block under
    [if isinstance(pm25, (int, float))]). *)
Definition air_quality_advice (pm25 : pyval) : M unit :=
  if is_number pm25 then
    write [Lit "**PM2.5:** "; Val pm25; Lit " μg/m³"];;
    good ← lift (py_le pm25 (PInt 25));
    if good : bool then
      success "😷 Good air quality - safe for outdoor activities!"
    else
      moderate ← lift (py_le pm25 (PInt 50));
      if moderate : bool then
        warning "😷 Moderate air quality - sensitive individuals should limit outdoor activities."
      else
        error "😷 Poor air quality - wear masks outdoors and limit exposure!"
  else mret tt.

(** The last part of [render_citizens_dashboard], from the subheader
    "Health Recommendations" on. *)
Definition health_recommendations (weather_data air_quality_data : option dict)
  : M unit :=
  subheader [Lit "🏥 Health Recommendations"];;
  let recommendations : list string := [] in
  recommendations ← lift (
    match number_in weather_data "temperature_2m" with
    | Some temp =>
        hot ← py_and temp (py_gt temp (PInt 35));
        mret (if hot : bool then
                recommendations ++
                  ["Drink plenty of water throughout the day";
                   "Wear light-colored, loose-fitting clothes";
                   "Avoid outdoor activities between 11 AM - 4 PM"]
              else recommendations)
    | None => mret recommendations
    end);
  recommendations ← lift (
    match number_in air_quality_data "pm2_5" with
    | Some pm25 =>
        bad ← py_and pm25 (py_gt pm25 (PInt 25));
        mret (if bad : bool then
                recommendations ++
                  ["Wear N95 masks when outdoors";
                   "Keep windows closed during high pollution hours";
                   "Consider indoor exercises instead of outdoor jogging"]
              else recommendations)
    | None => mret recommendations
    end);
  for_each recommendations (fun rec => write [Lit "• "; Val (PStr rec)]);;
  match recommendations with
  | [] => write [Lit "• Great conditions today! Enjoy outdoor activities safely."]
  | _ => mret tt
  end.

(** The block under [with col1:] of [render_citizens_dashboard]. *)
Definition weather_column (weather_data : option dict) : M unit :=
  subheader [Lit "🌤️ Today's Weather"];;
  when_bundle weather_data (fun weather_data =>
    let temp := dict_get weather_data "temperature_2m" (PStr "N/A") in
    let feels_like := dict_get weather_data "apparent_temperature" (PStr "N/A") in
    let humidity := dict_get weather_data "relative_humidity_2m" (PStr "N/A") in
    write [Lit "**Temperature:** "; Val temp; Lit "°C"];;
    write [Lit "**Feels like:** "; Val feels_like; Lit "°C"];;
    write [Lit "**Humidity:** "; Val humidity; Lit "%"];;
    comfort_recommendation temp).

(** The block under [with col2:] of [render_citizens_dashboard]. *)
Definition air_quality_column (air_quality_data : option dict) : M unit :=
  subheader [Lit "💨 Air Quality"];;
  when_bundle air_quality_data (fun air_quality_data =>
    let pm25 := dict_get air_quality_data "pm2_5" (PStr "N/A") in
    air_quality_advice pm25).

Definition render_citizens_dashboard (weather_data air_quality_data : option dict)
  : M unit :=
  info "🏠 **For Citizens**: Daily life climate information and health advisories";;
  columns 2;;
  within (Col 2 0) (weather_column weather_data);;
  within (Col 2 1) (air_quality_column air_quality_data);;
  health_recommendations weather_data air_quality_data.

Definition render_bbmp_dashboard (weather_data air_quality_data nasa_data : option dict)
  : M unit :=
  info "🏛️ **For BBMP**: Urban planning insights and city development guidance";;
  subheader [Lit "🌡️ Urban Heat Island Monitoring"];;
  columns 3;;
  within (Col 3 0)
    (metric "Heat Island Intensity" [Lit "3.2°C"] (Some "↑ 0.5°C from last month"));;
  within (Col 3 1)
    (metric "Critical Heat Zones" [Lit "4 areas"] (Some "↑ 1 new zone"));;
  within (Col 3 2)
    (metric "Green Cover Impact" [Lit "-2.1°C"] (Some "In parks & tree-lined areas"));;
  subheader [Lit "🏗️ Development Pressure Indicators"];;
  let pressure_data :=
    [("Zone", PStr <$> ["Electronic City"; "Whitefield"; "Sarjapur Road";
                        "North Bengaluru"; "Outer Ring Road"]);
     ("Development Intensity", PInt <$> [85; 78; 92; 45; 67]);
     ("Heat Risk", PStr <$> ["Very High"; "High"; "Very High"; "Low"; "Medium"]);
     ("Green Space %", PInt <$> [12; 18; 8; 35; 22])] in
  let df := Pandas.of_columns pressure_data in
  dataframe df;;
  subheader [Lit "📋 Planning Recommendations"];;
  write [Lit "**Immediate Actions:**"];;
  write [Lit "• Mandate 20% green space in new developments in Electronic City"];;
  write [Lit "• Implement cool roof policies in high heat zones"];;
  write [Lit "• Create green corridors connecting existing parks"];;
  write [Lit "**Long-term Strategy:**"];;
  write [Lit "• Develop satellite city centers to reduce central density"];;
  write [Lit "• Increase tree canopy coverage to 30% city-wide"];;
  write [Lit "• Implement building height restrictions in heat island zones"].

(** The nested function of [render_water_board_dashboard]. *)
Definition color_health_score (val : pyval) : result string :=
  good ← py_ge val (PInt 70);
  if good : bool then mret "background-color: #90EE90"
  else
    fair ← py_ge val (PInt 50);
    if fair : bool then mret "background-color: #FFD700"
    else mret "background-color: #FFB6C1".

(** [now k] is what the [k]-th call of [datetime.now()] of the run returns. *)
Definition render_water_board_dashboard (now : nat -> Z)
    (weather_data nasa_data : option dict) : M unit :=
  info "💧 **For BWSSB**: Water resource management and lake health monitoring";;
  subheader [Lit "🏞️ Lake Health Status"];;
  let lakes_data :=
    [("Lake", PStr <$> ["Bellandur"; "Ulsoor"; "Sankey Tank"; "Hebbal"; "Madivala"]);
     ("Health Score", PInt <$> [45; 78; 82; 67; 59]);
     ("Water Quality", PStr <$> ["Critical"; "Good"; "Excellent"; "Fair"; "Poor"]);
     ("Algal Bloom Risk", PStr <$> ["High"; "Low"; "Very Low"; "Medium"; "High"]);
     ("Action Required", PStr <$> ["Immediate"; "Monitor"; "Maintain"; "Improve"; "Urgent"])] in
  let df := Pandas.of_columns lakes_data in
  styled_df ← lift (Pandas.style_applymap color_health_score "Health Score" df);
  dataframe styled_df;;
  subheader [Lit "📈 Water Quality Trends"];;
  let dates :=
    Pandas.date_range_weekly (now 0%nat - Pandas.timedelta_days 90) (now 1%nat) in
  let bellandur_trend :=
    List.map (fun i => PInt (45 + (Z.of_nat i `mod` 5) - 2)) (seq 0 (length dates)) in
  let ulsoor_trend :=
    List.map (fun i => PInt (78 + (Z.of_nat i `mod` 3) - 1)) (seq 0 (length dates)) in
  let fig := Plotly.empty in
  let fig := Plotly.add_trace
    (Plotly.Scatter (PDatetime <$> dates) bellandur_trend "Bellandur Lake" "red") fig in
  let fig := Plotly.add_trace
    (Plotly.Scatter (PDatetime <$> dates) ulsoor_trend "Ulsoor Lake" "blue") fig in
  let fig := Plotly.update_layout (Some "Lake Health Trends (90 Days)")
    (Some "Date") (Some "Health Score") fig in
  plotly_chart fig;;
  subheader [Lit "🚨 Priority Action Items"];;
  error "**Critical**: Bellandur Lake requires immediate intervention - sewage treatment upgrade needed";;
  warning "**Monitor**: Madivala Lake showing declining trends - investigate pollution sources";;
  success "**Success**: Sankey Tank maintenance program showing positive results".

Definition base_demand : list pyval :=
  PInt <$> [1800; 1650; 1500; 1400; 1350; 1400; 1600; 1900; 2200; 2400;
            2600; 2750; 2850; 2900; 2850; 2700; 2500; 2300; 2100; 2000;
            1950; 1900; 1850; 1800].

(** [max(1.0, 1.0 + (temp - 25) * 0.02) if temp else 1.0] *)
Definition temp_factor (temp : pyval) : result pyval :=
  if truthy temp then
    a ← py_sub temp (PInt 25);
    b ← py_mul a (fl 0.02);
    c ← py_add (fl 1.0) b;
    py_max (fl 1.0) c
  else mret (fl 1.0).

(** The [adjusted_demand] of [render_electricity_dashboard]. *)
Definition adjusted_demand (weather_data : option dict) : result (list pyval) :=
  match number_in weather_data "temperature_2m" with
  | Some temp =>
      temp_factor ← temp_factor temp;
      mapM (fun d => py_mul d temp_factor) base_demand
  | None => mret base_demand
  end.

(** The first column of [render_electricity_dashboard]: the current
    temperature and the cooling demand estimated from it. *)
Definition current_conditions (weather_data : option dict) : M unit :=
  when_bundle weather_data (fun weather_data =>
    let temp := dict_get weather_data "temperature_2m" (PInt 25) in
    metric "Current Temperature" [Val temp; Lit "°C"] None;;
    hot ← lift (py_gt temp (PInt 30));
    if hot : bool then
      cooling_demand ← lift (
        a ← py_sub temp (PInt 25);
        b ← py_mul a (PInt 20);
        py_min (PInt 100) b);
      metric "Cooling Demand" [Val cooling_demand; Lit "%"] (Some "↑ High")
    else
      metric "Cooling Demand" [Lit "Low"] (Some "→ Stable")).

Definition render_electricity_dashboard (weather_data : option dict) : M unit :=
  info "⚡ **For BESCOM**: Power demand forecasting and grid management";;
  columns 3;;
  within (Col 3 0) (current_conditions weather_data);;
  within (Col 3 1)
    (metric "Predicted Peak Load" [Lit "2,850 MW"] (Some "↑ 12% vs yesterday"));;
  within (Col 3 2)
    (metric "Grid Stress Level" [Lit "Moderate"] (Some "Monitor closely"));;
  subheader [Lit "📊 24-Hour Demand Forecast"];;
  let hours := List.map (fun i => PInt (Z.of_nat i)) (seq 0 24) in
  adjusted_demand ← lift (adjusted_demand weather_data);
  let fig := Plotly.px_line hours adjusted_demand "24-Hour Power Demand Forecast"
    [("x", "Hour of Day"); ("y", "Demand (MW)")] in
  let fig := Plotly.add_hline
    {| Plotly.hline_y := 2500; Plotly.line_dash := "dash";
       Plotly.line_color := "red";
       Plotly.annotation_text := "Peak Alert Threshold" |} fig in
  plotly_chart fig;;
  subheader [Lit "⚡ Grid Management Recommendations"];;
  write [Lit "**Immediate Actions:**"];;
  write [Lit "• Prepare backup power sources for afternoon peak (2-4 PM)"];;
  write [Lit "• Issue power conservation advisory to industrial users"];;
  write [Lit "• Monitor transformer temperatures in high-demand areas"].

Definition render_parks_dashboard (weather_data nasa_data : option dict) : M unit :=
  info "🌳 **For Parks Department**: Green space management and urban forestry";;
  columns 4;;
  within (Col 4 0)
    (metric "City Green Cover" [Lit "18.2%"] (Some "↓ 1.2% vs last year"));;
  within (Col 4 1)
    (metric "Tree Canopy" [Lit "12.8%"] (Some "↑ 0.3% improvement"));;
  within (Col 4 2)
    (metric "Park Visitor Count" [Lit "15,420"] (Some "↑ 8% this week"));;
  within (Col 4 3)
    (metric "Tree Health Index" [Lit "76/100"] (Some "→ Stable"));;
  subheader [Lit "🏞️ Park Performance Dashboard"];;
  let parks_data :=
    [("Park Name", PStr <$> ["Cubbon Park"; "Lalbagh"; "Bannerghatta";
                             "Freedom Park"; "Jayamahal Park"]);
     ("Area (acres)", [PInt 300; PInt 240; PInt 104; fl 2.5; fl 4.2]);
     ("Visitor Count", PInt <$> [5420; 3890; 2150; 890; 340]);
     ("Tree Health", PInt <$> [85; 82; 78; 71; 69]);
     ("Cooling Effect", PStr <$> ["-2.1°C"; "-1.8°C"; "-1.5°C"; "-0.8°C"; "-0.6°C"])] in
  let df := Pandas.of_columns parks_data in
  dataframe df;;
  subheader [Lit "🌱 Tree Plantation Progress"];;
  columns 2;;
  within (Col 2 0) (
    let quarters := PStr <$> ["Q1 2024"; "Q2 2024"; "Q3 2024"; "Q4 2024 (Target)"] in
    let planted := PInt <$> [2840; 3150; 2960; 3500] in
    let targets := PInt <$> [3000; 3200; 3100; 3500] in
    let fig := Plotly.empty in
    let fig := Plotly.add_trace
      (Plotly.Bar quarters planted "Trees Planted" "green" None) fig in
    let fig := Plotly.add_trace
      (Plotly.Bar quarters targets "Target" "lightgreen" (Some 0.5%Q)) fig in
    let fig := Plotly.update_layout
      (Some "Quarterly Tree Plantation Progress") None None fig in
    plotly_chart fig);;
  within (Col 2 1) (
    let species := PStr <$> ["Banyan"; "Neem"; "Gulmohar"; "Rain Tree"; "Tamarind"; "Others"] in
    let counts := PInt <$> [890; 1240; 780; 650; 420; 980] in
    let fig := Plotly.px_pie counts species "Tree Species Distribution" in
    plotly_chart fig).

Definition render_research_dashboard
    (weather_data air_quality_data nasa_data : option dict) : M unit :=
  info "🔬 **For Researchers**: Comprehensive climate data analysis and trends";;
  subheader [Lit "📊 Data Quality Assessment"];;
  columns 3;;
  within (Col 3 0)
    (metric "Weather Data Quality" [Lit "98.5%"] (Some "↑ High reliability"));;
  within (Col 3 1)
    (metric "Satellite Data Coverage" [Lit "94.2%"] (Some "→ Good coverage"));;
  within (Col 3 2)
    (metric "Air Quality Sensors" [Lit "12 active"] (Some "↑ 2 new stations"));;
  subheader [Lit "🔍 Key Research Findings"];;
  write [Lit "**Climate Patterns:**"];;
  write [Lit "• Urban heat island intensity has increased 15% over 5 years"];;
  write [Lit "• Green spaces provide 2-3°C cooling benefit consistently"];;
  write [Lit "• Air quality shows seasonal variation with monsoon improvement"];;
  write [Lit "**Correlations Discovered:**"];;
  write [Lit "• Strong negative correlation (-0.78) between green cover and surface temperature"];;
  write [Lit "• PM2.5 levels increase 40% during construction season"];;
  write [Lit "• Lake health directly impacts local humidity levels"];;
  subheader [Lit "📈 Advanced Analytics"];;
  let correlation_data :=
    [("Metric", PStr <$> ["Temperature"; "Humidity"; "PM2.5"; "Green Cover"; "Lake Health"]);
     ("Temperature", fl <$> [1.0; -0.45; 0.23; -0.78; -0.34]%Q);
     ("Humidity", fl <$> [-0.45; 1.0; -0.12; 0.56; 0.67]%Q);
     ("PM2.5", fl <$> [0.23; -0.12; 1.0; -0.45; -0.23]%Q);
     ("Green Cover", fl <$> [-0.78; 0.56; -0.45; 1.0; 0.45]%Q);
     ("Lake Health", fl <$> [-0.34; 0.67; -0.23; 0.45; 1.0]%Q)] in
  write [Lit "**Correlation Matrix:**"];;
  let corr_df := Pandas.of_columns correlation_data in
  dataframe (Pandas.set_index "Metric" corr_df);;
  subheader [Lit "🎯 Research Recommendations"];;
  write [Lit "**Priority Research Areas:**"];;
  write [Lit "• Quantify economic impact of urban heat islands"];;
  write [Lit "• Study effectiveness of different cooling interventions"];;
  write [Lit "• Develop predictive models for air quality forecasting"];;
  write [Lit "• Assess climate change adaptation strategies"].

Definition render_dashboard (now : nat -> Z) (stakeholder : string)
    (weather_data air_quality_data nasa_data : option dict) : M unit :=
  subheader [Lit "Dashboard for "; Val (PStr stakeholder)];;
  if String.eqb stakeholder "Citizens" then
    render_citizens_dashboard weather_data air_quality_data
  else if String.eqb stakeholder "BBMP (City Planning)" then
    render_bbmp_dashboard weather_data air_quality_data nasa_data
  else if String.eqb stakeholder "BWSSB (Water Board)" then
    render_water_board_dashboard now weather_data nasa_data
  else if String.eqb stakeholder "BESCOM (Electricity)" then
    render_electricity_dashboard weather_data
  else if String.eqb stakeholder "Parks Department" then
    render_parks_dashboard weather_data nasa_data
  else if String.eqb stakeholder "Researchers" then
    render_research_dashboard weather_data air_quality_data nasa_data
  else mret tt.

End Dashboard.

(** ** utils/map_utils.py *)

Module MapUtils.
Import Folium.

(** [for x in l: body], the body mutating the map. *)
Definition for_each {A} (l : list A) (body : A -> map -> result map)
    (m : map) : result map :=
  foldl (fun acc x => m ← acc; body x m) (Ok m) l.

Definition create_base_map (lat lon : pyval) (zoom : Z) : map :=
  let m := {| map_location := (lat, lon); zoom_start := zoom;
              map_tiles := "OpenStreetMap"; children := [] |} in
  let m := add_to
    (TileLayer
       "https://server.arcgisonline.com/ArcGIS/rest/services/World_Imagery/MapServer/tile/{z}/{y}/{x}"
       (Some "Esri") "Satellite" false true) m in
  let m := add_to (TileLayer "CartoDB positron" None "Light Map" false true) m in
  let m := add_to LayerControl m in
  m.

(** The colour coding of [add_weather_markers]: [(color, quality)]. *)
Definition weather_marker_style (pm25 : pyval) : result (string * string) :=
  good ← py_le pm25 (PInt 12);
  if good : bool then mret ("green", "Good")
  else
    moderate ← py_le pm25 (PInt 35);
    if moderate : bool then mret ("orange", "Moderate")
    else mret ("red", "Unhealthy").

(** The popup of the weather station. *)
Definition weather_popup (weather_data : dict) : fstr :=
  [Lit "
            <div style='width: 200px;'>
                <h4>Current Conditions</h4>
                <p><strong>Temperature:</strong> ";
   Val (dict_get weather_data "temperature_2m" (PStr "N/A"));
   Lit "°C</p>
                <p><strong>Feels like:</strong> ";
   Val (dict_get weather_data "apparent_temperature" (PStr "N/A"));
   Lit "°C</p>
                <p><strong>Humidity:</strong> ";
   Val (dict_get weather_data "relative_humidity_2m" (PStr "N/A"));
   Lit "%</p>
                <p><strong>Wind:</strong> ";
   Val (dict_get weather_data "wind_speed_10m" (PStr "N/A"));
   Lit " km/h</p>
            </div>
            "].

(** The first half of [add_weather_markers]: the weather station. *)
Definition add_weather_station_marker (m : map) (weather_data : option dict)
  : result map :=
  match weather_data with
  | Some weather_data =>
      if truthy (PDict weather_data)
         && truthy (dict_get weather_data "location" PNone)
      then
        location ← py_getitem (PDict weather_data) "location";
        let popup_content := weather_popup weather_data in
        lat ← py_getitem location "lat";
        lon ← py_getitem location "lon";
        mret (add_to
                (Marker (lat, lon) (Popup popup_content (Some 250))
                   [Lit "Weather Station"]
                   (Icon "blue" "thermometer-half" "fa")) m)
      else mret m
  | None => mret m
  end.

(** The popup of the air-quality marker. *)
Definition air_quality_popup (air_quality_data : dict) (pm25 : pyval)
    (color quality : string) : fstr :=
          [Lit "
            <div style='width: 200px;'>
                <h4>Air Quality</h4>
                <p><strong>PM2.5:</strong> ";
         Val pm25;
         Lit " μg/m³</p>
                <p><strong>PM10:</strong> ";
         Val (dict_get air_quality_data "pm10" (PStr "N/A"));
         Lit " μg/m³</p>
                <p><strong>NO₂:</strong> ";
         Val (dict_get air_quality_data "nitrogen_dioxide" (PStr "N/A"));
         Lit " μg/m³</p>
                <p><strong>Status:</strong> <span style='color: ";
         Val (PStr color);
         Lit ";'>";
         Val (PStr quality);
         Lit "</span></p>
            </div>
            "].

(** The second half of [add_weather_markers]: the air-quality reading. *)
Definition add_air_quality_marker (m : map) (air_quality_data : option dict)
  : result map :=
  match air_quality_data with
  | Some air_quality_data =>
      if truthy (PDict air_quality_data)
         && truthy (dict_get air_quality_data "location" PNone)
      then
        location ← py_getitem (PDict air_quality_data) "location";
        let pm25 := dict_get air_quality_data "pm2_5" (PInt 0) in
        '(color, quality) ← weather_marker_style pm25;
        let popup_content := air_quality_popup air_quality_data pm25 color quality in
        lat ← py_getitem location "lat";
        lon ← py_getitem location "lon";
        mret (add_to
                (Marker (lat, lon) (Popup popup_content (Some 250))
                   [Lit "Air Quality: "; Val (PStr quality)]
                   (Icon color "wind" "fa")) m)
      else mret m
  | None => mret m
  end.

Definition add_weather_markers (m : map)
    (weather_data air_quality_data : option dict) : result map :=
  m ← add_weather_station_marker m weather_data;
  add_air_quality_marker m air_quality_data.

(** [[spot["lat"], spot["lon"], spot[key]]], through [f]. *)
Definition heat_point (key : string) (f : pyval -> result pyval) (spot : pyval)
  : result (pyval * pyval * pyval) :=
  lat ← py_getitem spot "lat";
  lon ← py_getitem spot "lon";
  x ← py_getitem spot key;
  x ← f x;
  mret (lat, lon, x).

Definition add_heat_island_layer (m : map) (heat_data : option dict)
  : result map :=
  '(heat_spots, cooling_zones) ←
    (if negb (bundle_truthy heat_data) then
       mret
         ([(fl 12.845, fl 77.661, fl 4.2);
           (fl 12.970, fl 77.750, fl 3.8);
           (fl 12.935, fl 77.610, fl 3.1);
           (fl 12.904, fl 77.600, fl 2.9)],
          [(fl 12.976, fl 77.590, fl (-2.1));
           (fl 12.950, fl 77.584, fl (-1.8));
           (fl 12.976, fl 77.625, fl (-1.3))])
     else
       let heat_data := default ∅ heat_data in
       spots ← py_iter (dict_get heat_data "hotspots" (PList []));
       heat_spots ← mapM (heat_point "intensity" Ok) spots;
       zones ← py_iter (dict_get heat_data "cooling_zones" (PList []));
       cooling_zones ← mapM (heat_point "cooling" py_abs) zones;
       mret (heat_spots, cooling_zones));
  let m :=
    match heat_spots with
    | [] => m
    | _ => add_to
             (HeatMap heat_spots "Heat Islands" 20 15
                [(0.2, "blue"); (0.4, "lime"); (0.6, "orange"); (1, "red")]%Q) m
    end in
  m ← for_each heat_spots (fun spot m =>
         mret (add_to
                 (CircleMarker (spot.1.1, spot.1.2) 10
                    (Popup [Lit "Heat Island: +"; Val spot.2; Lit "°C"] None)
                    [Lit "Heat Island Hotspot"] "red" "red" 0.6%Q None) m)) m;
  for_each cooling_zones (fun zone m =>
    mret (add_to
            (CircleMarker (zone.1.1, zone.1.2) 8
               (Popup [Lit "Cooling Zone: -"; Val zone.2; Lit "°C"] None)
               [Lit "Cooling Zone"] "blue" "lightblue" 0.6%Q None) m)) m.

Record lake : Type := Lake {
  lake_name : string;
  lake_lat : pyval;
  lake_lon : pyval;
  lake_health : pyval }.

Definition lakes : list lake :=
  [Lake "Bellandur Lake" (fl 12.926) (fl 77.675) (PInt 45);
   Lake "Ulsoor Lake" (fl 12.976) (fl 77.625) (PInt 78);
   Lake "Sankey Tank" (fl 12.991) (fl 77.567) (PInt 82);
   Lake "Hebbal Lake" (fl 13.036) (fl 77.597) (PInt 67);
   Lake "Madivala Lake" (fl 12.925) (fl 77.623) (PInt 59)].

(** The colour coding of [add_water_bodies]: [(color, status)]. *)
Definition lake_style (health : pyval) : result (string * string) :=
  good ← py_ge health (PInt 70);
  if good : bool then mret ("green", "Good")
  else
    fair ← py_ge health (PInt 50);
    if fair : bool then mret ("orange", "Fair")
    else mret ("red", "Poor").

(** The popup of a lake. *)
Definition lake_popup (lake : lake) (color status : string) : fstr :=
    [Lit "
            <div style='width: 150px;'>
                <h4>";
       Val (PStr (lake_name lake));
       Lit "</h4>
                <p><strong>Health Score:</strong> ";
       Val (lake_health lake);
       Lit "/100</p>
                <p><strong>Status:</strong> <span style='color: ";
       Val (PStr color);
       Lit ";'>";
       Val (PStr status);
       Lit "</span></p>
            </div>
            "].

(** The body of the loop of [add_water_bodies]. *)
Definition add_water_body (lake : lake) (m : map) : result map :=
  '(color, status) ← lake_style (lake_health lake);
  let popup_content := lake_popup lake color status in
  mret (add_to
          (Marker (lake_lat lake, lake_lon lake)
             (Popup popup_content (Some 200))
             [Val (PStr (lake_name lake))]
             (Icon color "tint" "fa")) m).

Definition add_water_bodies (m : map) : result map :=
  for_each lakes add_water_body m.

Record area : Type := Area {
  area_name : string;
  area_lat : pyval;
  area_lon : pyval;
  area_type : string }.

Definition development_areas : list area :=
  [Area "Electronic City Phase 2" (fl 12.835) (fl 77.675) "IT Hub";
   Area "Whitefield Extension" (fl 12.975) (fl 77.760) "Residential";
   Area "Sarjapur Road Corridor" (fl 12.905) (fl 77.700) "Mixed Development";
   Area "North Bengaluru" (fl 13.050) (fl 77.580) "Residential"].

Definition add_urban_growth_markers (m : map) : result map :=
  for_each development_areas (fun area m =>
    let icon_color :=
      default "gray"
        (({[ "IT Hub" := "purple"; "Residential" := "blue";
             "Mixed Development" := "orange" ]} : gmap string string)
           !! area_type area) in
    let popup_content :=
      [Lit "
            <div style='width: 150px;'>
                <h4>";
       Val (PStr (area_name area));
       Lit "</h4>
                <p><strong>Type:</strong> ";
       Val (PStr (area_type area));
       Lit "</p>
                <p><strong>Status:</strong> Under Development</p>
            </div>
            "] in
    mret (add_to
            (Marker (area_lat area, area_lon area)
               (Popup popup_content (Some 200))
               [Val (PStr (area_name area))]
               (Icon icon_color "building" "fa")) m)) m.

Record station : Type := Station {
  station_name : string;
  station_lat : pyval;
  station_lon : pyval;
  station_pm25 : pyval }.

Definition stations : list station :=
  [Station "City Railway Station" (fl 12.977) (fl 77.571) (PInt 45);
   Station "BTM Layout" (fl 12.912) (fl 77.610) (PInt 52);
   Station "Whitefield" (fl 12.970) (fl 77.750) (PInt 38);
   Station "Electronic City" (fl 12.845) (fl 77.661) (PInt 67);
   Station "Jayanagar" (fl 12.926) (fl 77.583) (PInt 41)].

(** The colour coding of [add_air_quality_zones]: [(color, status)]. *)
Definition air_zone_style (pm25 : pyval) : result (string * string) :=
  good ← py_le pm25 (PInt 25);
  if good : bool then mret ("green", "Good")
  else
    moderate ← py_le pm25 (PInt 50);
    if moderate : bool then mret ("orange", "Moderate")
    else mret ("red", "Unhealthy").

(** The popup of a monitoring station. *)
Definition air_zone_popup (station : station) (pm25 : pyval)
    (color status : string) : fstr :=
    [Lit "
            <div style='width: 150px;'>
                <h4>";
       Val (PStr (station_name station));
       Lit "</h4>
                <p><strong>PM2.5:</strong> ";
       Val pm25;
       Lit " μg/m³</p>
                <p><strong>Status:</strong> <span style='color: ";
       Val (PStr color);
       Lit ";'>";
       Val (PStr status);
       Lit "</span></p>
            </div>
            "].

(** The body of the loop of [add_air_quality_zones]. *)
Definition add_air_quality_zone (station : station) (m : map) : result map :=
  let pm25 := station_pm25 station in
  '(color, status) ← air_zone_style pm25;
  let popup_content := air_zone_popup station pm25 color status in
  mret (add_to
          (CircleMarker (station_lat station, station_lon station) 12
             (Popup popup_content (Some 200))
             [Val (PStr (station_name station)); Lit ": "; Val (PStr status)]
             color color 0.7%Q None) m).

Definition add_air_quality_zones (m : map) (air_quality_data : option dict)
  : result map :=
  for_each stations add_air_quality_zone m.

End MapUtils.

(** ** components/maps.py *)

Module Maps.
Import Folium St.

Record landmark : Type := Landmark {
  landmark_name : string;
  landmark_lat : pyval;
  landmark_lon : pyval;
  landmark_type : string }.

Definition add_city_landmarks (m : map) : result map :=
  let landmarks :=
    [Landmark "Vidhana Soudha" (fl 12.979) (fl 77.590) "government";
     Landmark "Bangalore Palace" (fl 12.998) (fl 77.592) "heritage";
     Landmark "UB City Mall" (fl 12.972) (fl 77.595) "commercial";
     Landmark "Kempegowda Airport" (fl 13.199) (fl 77.706) "transport";
     Landmark "Majestic Bus Station" (fl 12.977) (fl 77.571) "transport"] in
  let icon_map : gmap string (string * string) :=
    {[ "government" := ("purple", "university");
       "heritage" := ("darkred", "monument");
       "commercial" := ("orange", "shopping-cart");
       "transport" := ("blue", "plane") ]} in
  MapUtils.for_each landmarks (fun landmark m =>
    let icon_info :=
      default ("gray", "info-sign") (icon_map !! landmark_type landmark) in
    mret (add_to
            (Marker (landmark_lat landmark, landmark_lon landmark)
               (Popup [Lit "<b>"; Val (PStr (landmark_name landmark));
                       Lit "</b><br>Type: ";
                       Val (PStr (title (landmark_type landmark)))]
                  (Some 200))
               [Val (PStr (landmark_name landmark))]
               (Icon icon_info.1 icon_info.2 "fa")) m)) m.

Record tstation : Type := TStation {
  tstation_name : string;
  tstation_lat : pyval;
  tstation_lon : pyval;
  tstation_temp : pyval }.

Definition add_temperature_stations (m : map) : result map :=
  let stations :=
    [TStation "HAL Airport" (fl 12.960) (fl 77.644) (fl 28.5);
     TStation "IISC Campus" (fl 13.021) (fl 77.566) (fl 26.8);
     TStation "Electronic City" (fl 12.845) (fl 77.661) (fl 32.1);
     TStation "Whitefield" (fl 12.970) (fl 77.750) (fl 31.4)] in
  MapUtils.for_each stations (fun station m =>
    hot ← py_gt (tstation_temp station) (PInt 30);
    color ← (if hot : bool then mret "red"
             else
               warm ← py_gt (tstation_temp station) (PInt 28);
               if warm : bool then mret "orange" else mret "green");
    let popup_content :=
      [Lit "
        <div style='width: 150px;'>
            <h4>";
       Val (PStr (tstation_name station));
       Lit "</h4>
            <p><strong>Temperature:</strong> ";
       Val (tstation_temp station);
       Lit "°C</p>
        </div>
        "] in
    mret (add_to
            (CircleMarker (tstation_lat station, tstation_lon station) 8
               (Popup popup_content (Some 200))
               [Val (PStr (tstation_name station)); Lit ": ";
                Val (tstation_temp station); Lit "°C"]
               color color 0.7%Q None) m)) m.

Record point : Type := Point {
  point_name : string;
  point_lat : pyval;
  point_lon : pyval;
  point_quality : string }.

Definition add_water_quality_stations (m : map) : result map :=
  let monitoring_points :=
    [Point "Bellandur Inlet" (fl 12.930) (fl 77.670) "Poor";
     Point "Bellandur Outlet" (fl 12.922) (fl 77.680) "Very Poor";
     Point "Ulsoor Lake Center" (fl 12.976) (fl 77.625) "Good";
     Point "Sankey Tank Inlet" (fl 12.993) (fl 77.565) "Excellent";
     Point "Hebbal Lake" (fl 13.036) (fl 77.597) "Fair"] in
  let quality_colors : gmap string string :=
    {[ "Excellent" := "darkgreen"; "Good" := "green"; "Fair" := "orange";
       "Poor" := "red"; "Very Poor" := "darkred" ]} in
  MapUtils.for_each monitoring_points (fun point m =>
    let color := default "gray" (quality_colors !! point_quality point) in
    let popup_content :=
      [Lit "
        <div style='width: 150px;'>
            <h4>";
       Val (PStr (point_name point));
       Lit "</h4>
            <p><strong>Water Quality:</strong> ";
       Val (PStr (point_quality point));
       Lit "</p>
        </div>
        "] in
    mret (add_to
            (Marker (point_lat point, point_lon point)
               (Popup popup_content (Some 200))
               [Lit "Water Quality: "; Val (PStr (point_quality point))]
               (Icon color "tint" "fa")) m)) m.

Record source : Type := Source {
  source_name : string;
  source_lat : pyval;
  source_lon : pyval;
  source_type : string }.

Definition add_pollution_sources (m : map) : result map :=
  let pollution_sources :=
    [Source "Industrial Area - Peenya" (fl 13.030) (fl 77.520) "Industrial";
     Source "Traffic Junction - Silk Board" (fl 12.918) (fl 77.623) "Traffic";
     Source "Construction Zone - Outer Ring Road" (fl 12.935) (fl 77.692)
       "Construction";
     Source "Waste Processing - Mavallipura" (fl 13.181) (fl 77.486) "Waste"] in
  let type_colors : gmap string string :=
    {[ "Industrial" := "purple"; "Traffic" := "red";
       "Construction" := "orange"; "Waste" := "brown" ]} in
  MapUtils.for_each pollution_sources (fun source m =>
    let color := default "gray" (type_colors !! source_type source) in
    let popup_content :=
      [Lit "
        <div style='width: 150px;'>
            <h4>";
       Val (PStr (source_name source));
       Lit "</h4>
            <p><strong>Type:</strong> ";
       Val (PStr (source_type source));
       Lit " Pollution</p>
        </div>
        "] in
    mret (add_to
            (Marker (source_lat source, source_lon source)
               (Popup popup_content (Some 200))
               [Val (PStr (source_type source)); Lit " Pollution Source"]
               (Icon color "warning-sign" "fa")) m)) m.

Record zone : Type := Zone {
  zone_name : string;
  zone_lat : pyval;
  zone_lon : pyval;
  zone_status : string }.

Definition add_development_zones (m : map) : result map :=
  let development_zones :=
    [Zone "Aerospace Park" (fl 13.140) (fl 77.560) "Planned";
     Zone "Peripheral Ring Road" (fl 12.850) (fl 77.450) "Under Construction";
     Zone "New Metro Extension" (fl 12.920) (fl 77.720) "Approved";
     Zone "IT Corridor Extension" (fl 12.800) (fl 77.700) "Proposed"] in
  let status_colors : gmap string string :=
    {[ "Planned" := "blue"; "Under Construction" := "orange";
       "Approved" := "green"; "Proposed" := "purple" ]} in
  MapUtils.for_each development_zones (fun zone m =>
    let color := default "gray" (status_colors !! zone_status zone) in
    let popup_content :=
      [Lit "
        <div style='width: 150px;'>
            <h4>";
       Val (PStr (zone_name zone));
       Lit "</h4>
            <p><strong>Status:</strong> ";
       Val (PStr (zone_status zone));
       Lit "</p>
        </div>
        "] in
    mret (add_to
            (CircleMarker (zone_lat zone, zone_lon zone) 15
               (Popup popup_content (Some 200))
               [Val (PStr (zone_name zone)); Lit " (";
                Val (PStr (zone_status zone)); Lit ")"]
               color color 0.3%Q (Some 3)) m)) m.

(** The render functions below mutate the map they receive; the mutated map
    is returned to the caller, who holds the same object. *)
Definition render_overview_map (m : map) (lat lon : pyval)
    (weather_data air_quality_data : option dict) : M map :=
  m ← lift (MapUtils.add_weather_markers m weather_data air_quality_data);
  m ← lift (MapUtils.add_water_bodies m);
  m ← lift (MapUtils.add_air_quality_zones m None);
  lift (add_city_landmarks m).

Definition render_heat_island_map (m : map) : M map :=
  m ← lift (MapUtils.add_heat_island_layer m None);
  m ← lift (add_temperature_stations m);
  info "🌡️ **Heat Island Map**: Red areas show urban heat islands, blue areas show cooling zones.";;
  mret m.

Definition render_water_monitoring_map (m : map) : M map :=
  m ← lift (MapUtils.add_water_bodies m);
  m ← lift (add_water_quality_stations m);
  info "💧 **Water Monitoring**: Click on lakes to see health status and quality metrics.";;
  mret m.

Definition render_air_quality_map (m : map) : M map :=
  m ← lift (MapUtils.add_air_quality_zones m None);
  m ← lift (add_pollution_sources m);
  info "🌬️ **Air Quality Map**: Green circles show good air quality, red circles show poor air quality.";;
  mret m.

Definition render_urban_growth_map (m : map) : M map :=
  m ← lift (MapUtils.add_urban_growth_markers m);
  m ← lift (add_development_zones m);
  info "🏗️ **Urban Growth Map**: Purple markers show IT hubs, blue markers show residential areas.";;
  mret m.

Definition sidebar_subheader (s : string) : M unit :=
  emit_in Sidebar (WSubheader [Lit s]).
Definition sidebar_write (s : fstr) : M unit := emit_in Sidebar (WWrite s).

Definition suggest_nearby_locations (lat lon : pyval) (map_type : string)
  : M unit :=
  sidebar_subheader "🎯 Nearby Points of Interest";;
  if String.eqb map_type "water_monitoring" then
    sidebar_write [Lit "• Nearest monitoring station"];;
    sidebar_write [Lit "• Water treatment facilities"];;
    sidebar_write [Lit "• Lake restoration projects"]
  else if String.eqb map_type "air_quality" then
    sidebar_write [Lit "• Air quality monitoring stations"];;
    sidebar_write [Lit "• Green spaces for better air"];;
    sidebar_write [Lit "• Low-pollution routes"]
  else if String.eqb map_type "heat_island" then
    sidebar_write [Lit "• Cooling centers/parks"];;
    sidebar_write [Lit "• Shaded walking paths"];;
    sidebar_write [Lit "• Public facilities with AC"]
  else
    sidebar_write [Lit "• Weather stations"];;
    sidebar_write [Lit "• Public amenities"];;
    sidebar_write [Lit "• Transport hubs"].

(** [abs(lat - 12.972) + abs(lon - 77.594)] *)
Definition distance_from_centre (lat lon : pyval) : result pyval :=
  a ← py_sub lat (fl 12.972);
  a ← py_abs a;
  b ← py_sub lon (fl 77.594);
  b ← py_abs b;
  py_add a b.

Definition handle_map_click (clicked_data : pyval) (map_type : string) : M unit :=
  if negb (truthy clicked_data) then mret tt
  else
    lat ← lift (py_get clicked_data "lat");
    lon ← lift (py_get clicked_data "lng");
    if truthy lat && truthy lon then
      sidebar_subheader "📍 Location Info";;
      flat ← lift (fmt_float ".4f" lat);
      flon ← lift (fmt_float ".4f" lon);
      sidebar_write [Lit "**Coordinates:** "; flat; Lit ", "; flon];;
      (if String.eqb map_type "heat_island" then
         estimated_temp ← lift (
           d ← distance_from_centre lat lon;
           e ← py_mul d (PInt 50);
           py_add (PInt 28) e);
         f ← lift (fmt_float ".1f" estimated_temp);
         sidebar_write [Lit "**Estimated Temperature:** "; f; Lit "°C"]
       else if String.eqb map_type "air_quality" then
         estimated_pm25 ← lift (
           d ← distance_from_centre lat lon;
           e ← py_mul d (PInt 10);
           urban_factor ← py_min (fl 1.0) e;
           g ← py_mul urban_factor (PInt 20);
           py_add (PInt 30) g);
         f ← lift (fmt_float ".1f" estimated_pm25);
         sidebar_write [Lit "**Estimated PM2.5:** "; f; Lit " μg/m³"]
       else mret tt);;
      suggest_nearby_locations lat lon map_type
    else mret tt.

(** [map_data] is what [st_folium] returns for the displayed map. *)
Definition render_interactive_map (map_data : dict) (lat lon : pyval)
    (weather_data air_quality_data : option dict) (map_type : string)
  : M unit :=
  let m := MapUtils.create_base_map lat lon 11 in
  m ← (if String.eqb map_type "overview" then
         render_overview_map m lat lon weather_data air_quality_data
       else if String.eqb map_type "heat_island" then
         render_heat_island_map m
       else if String.eqb map_type "water_monitoring" then
         render_water_monitoring_map m
       else if String.eqb map_type "air_quality" then
         render_air_quality_map m
       else if String.eqb map_type "urban_growth" then
         render_urban_growth_map m
       else mret m);
  emit (WFolium m 700 500);;
  last_clicked ← lift (py_getitem (PDict map_data) "last_clicked");
  if truthy last_clicked then handle_map_click last_clicked map_type
  else mret tt.

End Maps.

(** * The classification rules of the specification *)

Module Rules.
Import St.

(** The value [x] of a reading against a threshold [q].  NaN is on neither
    side of any threshold. *)
Definition below (x : pyfloat) (q : Q) : Prop :=
  match x with
  | FNegInf => True
  | FFin v => (v < q)%Q
  | _ => False
  end.

Definition at_most (x : pyfloat) (q : Q) : Prop :=
  match x with
  | FNegInf => True
  | FFin v => (v <= q)%Q
  | _ => False
  end.

Definition above (x : pyfloat) (q : Q) : Prop :=
  match x with
  | FPosInf => True
  | FFin v => (q < v)%Q
  | _ => False
  end.

Definition at_least (x : pyfloat) (q : Q) : Prop :=
  match x with
  | FPosInf => True
  | FFin v => (q <= v)%Q
  | _ => False
  end.

Inductive temp_category : Type := Cool | Pleasant | VeryHot.
Inductive air_category : Type := Good | Moderate | Poor.
Inductive lake_category : Type := LakeGood | LakeFair | LakePoor.

(** What the citizens dashboard shows for a temperature category. *)
Definition comfort_widget (c : temp_category) : widget :=
  match c with
  | Cool => WInfo "🧥 Cool day! You might want to carry a light jacket."
  | Pleasant => WSuccess "😊 Pleasant weather for outdoor activities!"
  | VeryHot =>
      WWarning "🌡️ Very hot day! Stay hydrated and avoid outdoor activities during peak hours."
  end.

(** What the citizens dashboard shows for an air-quality category. *)
Definition air_widget (c : air_category) : widget :=
  match c with
  | Good => WSuccess "😷 Good air quality - safe for outdoor activities!"
  | Moderate =>
      WWarning "😷 Moderate air quality - sensitive individuals should limit outdoor activities."
  | Poor => WError "😷 Poor air quality - wear masks outdoors and limit exposure!"
  end.

(** Colour and status of a map marker for an air-quality category; the
    worst category reads "Unhealthy" on the map. *)
Definition air_marker (c : air_category) : string * string :=
  match c with
  | Good => ("green", "Good")
  | Moderate => ("orange", "Moderate")
  | Poor => ("red", "Unhealthy")
  end.

(** Colour and status of a lake marker. *)
Definition lake_marker (c : lake_category) : string * string :=
  match c with
  | LakeGood => ("green", "Good")
  | LakeFair => ("orange", "Fair")
  | LakePoor => ("red", "Poor")
  end.

(** Cell style of the lake table: light green, gold, light pink. *)
Definition lake_cell (c : lake_category) : string :=
  match c with
  | LakeGood => "background-color: #90EE90"
  | LakeFair => "background-color: #FFD700"
  | LakePoor => "background-color: #FFB6C1"
  end.

(** The widgets of one container, in order. *)
#[export] Instance container_eq_dec : EqDecision container.
Proof. solve_decision. Defined.

Definition in_container (c : container) (log : list event) : list widget :=
  (filter (fun e : event => e.1 = c) log).*2.

(** All the widgets of a run, in order. *)
Definition shown {A} (m : M A) : list widget := m.1.*2.

(** The readings the weather column of the citizens dashboard lists. *)
Definition weather_readings (weather_data : dict) : list widget :=
  [WSubheader [Lit "🌤️ Today's Weather"];
   WWrite [Lit "**Temperature:** ";
           Val (dict_get weather_data "temperature_2m" (PStr "N/A")); Lit "°C"];
   WWrite [Lit "**Feels like:** ";
           Val (dict_get weather_data "apparent_temperature" (PStr "N/A"));
           Lit "°C"];
   WWrite [Lit "**Humidity:** ";
           Val (dict_get weather_data "relative_humidity_2m" (PStr "N/A"));
           Lit "%"]].

(** The reading the air-quality column lists. *)
Definition air_readings (pm25 : pyval) : list widget :=
  [WSubheader [Lit "💨 Air Quality"];
   WWrite [Lit "**PM2.5:** "; Val pm25; Lit " μg/m³"]].

(** The rules of the table of the specification, one constructor per row
    entry. *)
Inductive temperature_rule (x : pyfloat) : temp_category -> Prop :=
| temperature_cool : below x 15 -> temperature_rule x Cool
| temperature_pleasant : at_least x 15 -> at_most x 35 -> temperature_rule x Pleasant
| temperature_very_hot : above x 35 -> temperature_rule x VeryHot.

Inductive pm25_rule (x : pyfloat) : air_category -> Prop :=
| pm25_good : at_most x 25 -> pm25_rule x Good
| pm25_moderate : above x 25 -> at_most x 50 -> pm25_rule x Moderate
| pm25_poor : above x 50 -> pm25_rule x Poor.

Inductive station_pm25_rule (x : pyfloat) : air_category -> Prop :=
| station_good : at_most x 12 -> station_pm25_rule x Good
| station_moderate : above x 12 -> at_most x 35 -> station_pm25_rule x Moderate
| station_unhealthy : above x 35 -> station_pm25_rule x Poor.

Inductive lake_rule (x : pyfloat) : lake_category -> Prop :=
| lake_good : at_least x 70 -> lake_rule x LakeGood
| lake_fair : at_least x 50 -> below x 70 -> lake_rule x LakeFair
| lake_poor : below x 50 -> lake_rule x LakePoor.

(** The rules as functions of the value, in the order the code tests
    them. *)
Definition temp_class (x : pyfloat) : temp_category :=
  if f_gt x (FFin 35) then VeryHot
  else if f_lt x (FFin 15) then Cool else Pleasant.

Definition air_class (x : pyfloat) : air_category :=
  if f_le x (FFin 25) then Good
  else if f_le x (FFin 50) then Moderate else Poor.

Definition station_class (x : pyfloat) : air_category :=
  if f_le x (FFin 12) then Good
  else if f_le x (FFin 35) then Moderate else Poor.

Definition lake_class (x : pyfloat) : lake_category :=
  if f_ge x (FFin 70) then LakeGood
  else if f_ge x (FFin 50) then LakeFair else LakePoor.

(** The marker [add_air_quality_zones] puts on the map for a station, given
    its colour and status. *)
Definition zone_circle (station : MapUtils.station) (style : string * string)
  : Folium.child :=
  Folium.CircleMarker
    (MapUtils.station_lat station, MapUtils.station_lon station) 12
    (Folium.Popup
       (MapUtils.air_zone_popup station (MapUtils.station_pm25 station)
          style.1 style.2) (Some 200))
    [Val (PStr (MapUtils.station_name station)); Lit ": "; Val (PStr style.2)]
    style.1 style.1 0.7%Q None.

(** The marker [add_water_bodies] puts on the map for a lake. *)
Definition lake_pin (lake : MapUtils.lake) (style : string * string)
  : Folium.child :=
  Folium.Marker (MapUtils.lake_lat lake, MapUtils.lake_lon lake)
    (Folium.Popup (MapUtils.lake_popup lake style.1 style.2) (Some 200))
    [Val (PStr (MapUtils.lake_name lake))]
    (Folium.Icon style.1 "tint" "fa").

(** The marker [add_weather_markers] puts on the map for the air-quality
    reading [pm25] of the bundle. *)
Definition air_pin (air_quality_data : dict) (lat lon pm25 : pyval)
    (style : string * string) : Folium.child :=
  Folium.Marker (lat, lon)
    (Folium.Popup
       (MapUtils.air_quality_popup air_quality_data pm25 style.1 style.2)
       (Some 250))
    [Lit "Air Quality: "; Val (PStr style.2)]
    (Folium.Icon style.1 "wind" "fa").

(** Tooltip and colour of a marker. *)
Definition tooltip_and_colour (c : Folium.child) : option (fstr * string) :=
  match c with
  | Folium.Marker _ _ tooltip ic => Some (tooltip, Folium.icon_color ic)
  | Folium.CircleMarker _ _ _ tooltip color _ _ _ => Some (tooltip, color)
  | _ => None
  end.

(** The overview map with a PM2.5 reading of 40 at the weather station: the
    marker of the reading and the circle of the Jayanagar station (41). *)
Definition overview_sample : option (list (fstr * string)) :=
  match
    (Maps.render_overview_map (MapUtils.create_base_map (fl 12.9716) (fl 77.5946) 11)
       (fl 12.9716) (fl 77.5946) None
       (Some {[ "location" := PDict {[ "lat" := fl 12.9716; "lon" := fl 77.5946 ]};
                "pm2_5" := PInt 40 ]})).2
  with
  | Ok m => Some (omap tooltip_and_colour (Folium.children m))
  | Raise _ => None
  end.

(** Severity of a category: the higher, the worse.  Pleasant is the mild
    temperature category; Cool and VeryHot are both worse than it. *)
Definition temp_severity (c : temp_category) : nat :=
  match c with Pleasant => 0 | Cool => 1 | VeryHot => 1 end.
Definition air_severity (c : air_category) : nat :=
  match c with Good => 0 | Moderate => 1 | Poor => 2 end.
Definition lake_severity (c : lake_category) : nat :=
  match c with LakeGood => 0 | LakeFair => 1 | LakePoor => 2 end.

Definition stricter {C} (severity : C -> nat) (a b : C) : C :=
  if (severity a <? severity b)%nat then b else a.
Definition milder {C} (severity : C -> nat) (a b : C) : C :=
  if (severity a <? severity b)%nat then a else b.

(** The boundaries of the table, each with the category below it and the
    category above it. *)
Definition temperature_boundaries : list (Z * (temp_category * temp_category)) :=
  [(15, (Cool, Pleasant)); (35, (Pleasant, VeryHot))].
Definition pm25_boundaries : list (Z * (air_category * air_category)) :=
  [(25, (Good, Moderate)); (50, (Moderate, Poor))].
Definition lake_boundaries : list (Z * (lake_category * lake_category)) :=
  [(50, (LakePoor, LakeFair)); (70, (LakeFair, LakeGood))].

(** A reading whose value is exactly [b]. *)
Definition reads (v : pyval) (b : Z) : Prop :=
  exists q, as_number v = Some (FFin q) /\ (q == inject_Z b)%Q.

(** "A value exactly on a boundary gets the category [pick] chooses among
    the two that meet there", for the temperature advice, the PM2.5 advice
    and the lake markers. *)
Definition boundary_policy
    (pick : forall C, (C -> nat) -> C -> C -> C) : Prop :=
  (forall b lo hi v,
     (b, (lo, hi)) ∈ temperature_boundaries -> reads v b ->
     shown (Dashboard.comfort_recommendation v)
     = [comfort_widget (pick _ temp_severity lo hi)])
  /\ (forall b lo hi v,
        (b, (lo, hi)) ∈ pm25_boundaries -> reads v b ->
        last (shown (Dashboard.air_quality_advice v))
        = Some (air_widget (pick _ air_severity lo hi)))
  /\ (forall b lo hi v,
        (b, (lo, hi)) ∈ lake_boundaries -> reads v b ->
        MapUtils.lake_style v = Ok (lake_marker (pick _ lake_severity lo hi))).

(** A weather-station bundle with a location and no PM2.5 reading. *)
Definition bundle_without_pm25 : dict :=
  {[ "location" := PDict {[ "lat" := fl 12.9716; "lon" := fl 77.5946 ]};
     "pm10" := PInt 40 ]}.

(** A weather bundle with no temperature reading. *)
Definition bundle_without_temperature : dict :=
  {[ "relative_humidity_2m" := PInt 60 ]}.

(** The same bundles with the reading present and null. *)
Definition bundle_with_null_pm25 : dict :=
  <[ "pm2_5" := PNone ]> bundle_without_pm25.
Definition bundle_with_null_temperature : dict :=
  <[ "temperature_2m" := PNone ]> bundle_without_temperature.

(** A line that shows a reading: its label and the value shown. *)
Definition metric_line (w : widget) : option (string * pyval) :=
  match w with
  | WWrite [Lit label; Val v; Lit _] => Some (label, v)
  | WMetric label [Val v; Lit _] _ => Some (label, v)
  | _ => None
  end.

Definition metric_lines {A} (m : M A) : list (string * pyval) :=
  omap metric_line (shown m).

(** A map put on the page. *)
Definition is_map (w : widget) : bool :=
  match w with
  | WFolium _ _ _ => true
  | _ => false
  end.

(** A widget that shows neither a reading nor a map. *)
Definition plain (w : widget) : Prop :=
  metric_line w = None /\ is_map w = false.

(** Two bundles with the same reading under [k]. *)
Definition same_reading (k : string) (d1 d2 : dict) : Prop := d1 !! k = d2 !! k.

(** [max(1.0, 1.0 + (t - 25) * 0.02)], without the guard on [t]. *)
Definition scale_factor (t : pyval) : result pyval :=
  a ← py_sub t (PInt 25);
  b ← py_mul a (fl 0.02);
  c ← py_add (fl 1.0) b;
  py_max (fl 1.0) c.

(** The factor as a function of the value of the reading: 1 up to 25
    degrees (and for NaN), [1 + (v - 25) * 0.02] above. *)
Inductive factor_of : pyfloat -> pyfloat -> Prop :=
| factor_nan : factor_of FNaN (FFin 1.0)
| factor_neg_inf : factor_of FNegInf (FFin 1.0)
| factor_pos_inf : factor_of FPosInf FPosInf
| factor_low v : (v <= 25)%Q -> factor_of (FFin v) (FFin 1.0)
| factor_high v c :
    (25 < v)%Q -> (c == 1 + (v - 25) * 0.02)%Q -> factor_of (FFin v) (FFin c).

(** The hourly demands of the base curve. *)
Definition base_curve : list Z :=
  [1800; 1650; 1500; 1400; 1350; 1400; 1600; 1900; 2200; 2400;
   2600; 2750; 2850; 2900; 2850; 2700; 2500; 2300; 2100; 2000;
   1950; 1900; 1850; 1800].

(** The base curve scaled by a factor. *)
Definition scaled (g : pyfloat) : list pyval :=
  (fun d => PFloat (f_mul (FFin (inject_Z d)) g)) <$> base_curve.

(** [l1[i] <= l2[i]] at every hour. *)
Definition pointwise_le (l1 l2 : list pyval) : Prop :=
  Forall2 (fun d y => py_le d y = Ok true) l1 l2.

(** The chart of the electricity dashboard for a forecast. *)
Definition forecast_chart (forecast : list pyval) : widget :=
  WPlotlyChart
    (Plotly.add_hline
       {| Plotly.hline_y := 2500; Plotly.line_dash := "dash";
          Plotly.line_color := "red";
          Plotly.annotation_text := "Peak Alert Threshold" |}
       (Plotly.px_line (List.map (fun i => PInt (Z.of_nat i)) (seq 0 24))
          forecast "24-Hour Power Demand Forecast"
          [("x", "Hour of Day"); ("y", "Demand (MW)")]))
    true.

(** The map types [render_interactive_map] knows. *)
Definition map_types : list string :=
  ["overview"; "heat_island"; "water_monitoring"; "air_quality"; "urban_growth"].

(** What [st_folium] reports as the last click: nothing, or the
    coordinates of the click. *)
Definition click (c : pyval) : Prop :=
  c = PNone
  \/ exists lat lng : Q, c = PDict {[ "lat" := fl lat; "lng" := fl lng ]}.

End Rules.
Import Rules.

(** * Shapes of the views *)

Module Shapes.
Import St.

(** The stakeholders [render_dashboard] knows. *)
Definition stakeholders : list string :=
  ["Citizens"; "BBMP (City Planning)"; "BWSSB (Water Board)";
   "BESCOM (Electricity)"; "Parks Department"; "Researchers"].

(** The reading of a bundle under [k]: what [b.get(k)] finds when the
    bundle passes [if b:]. *)
Definition reading (b : option dict) (k : string) : option pyval :=
  match b with
  | Some d => if truthy (PDict d) then d !! k else None
  | None => None
  end.

(** The lines of the health recommendations. *)
Definition recommendation_line (rec : string) : widget :=
  WWrite [Lit "• "; Val (PStr rec)].

Definition heat_lines : list widget :=
  recommendation_line <$>
    ["Drink plenty of water throughout the day";
     "Wear light-colored, loose-fitting clothes";
     "Avoid outdoor activities between 11 AM - 4 PM"].

Definition mask_lines : list widget :=
  recommendation_line <$>
    ["Wear N95 masks when outdoors";
     "Keep windows closed during high pollution hours";
     "Consider indoor exercises instead of outdoor jogging"].

Definition great_line : widget :=
  WWrite [Lit "• Great conditions today! Enjoy outdoor activities safely."].

(** [m'] is [m] with overlays added on top: same centre, zoom and tiles,
    the children of [m] first and in the same order, and only markers,
    circles and heat maps after them. *)
Definition extends (m m' : Folium.map) : Prop :=
  Folium.map_location m' = Folium.map_location m
  /\ Folium.zoom_start m' = Folium.zoom_start m
  /\ Folium.map_tiles m' = Folium.map_tiles m
  /\ exists added,
       Folium.children m' = Folium.children m ++ added
       /\ Forall (fun c => Folium.is_overlay c = true) added.

(** A layer function keeps what is on the map. *)
Definition layer (f : Folium.map -> result Folium.map) : Prop :=
  forall m m', f m = Ok m' -> extends m m'.

(** The map types that draw from fixed tables only, with the number of
    overlays each one draws. *)
Definition static_map_types : list (string * nat) :=
  [("heat_island", 12%nat); ("water_monitoring", 10%nat);
   ("air_quality", 9%nat); ("urban_growth", 8%nat)].

(** How bad an air-quality category is. *)
Definition severity (c : air_category) : nat :=
  match c with
  | Good => 0
  | Moderate => 1
  | Poor => 2
  end.

End Shapes.
Import Shapes.

(** * Order on readings *)

Lemma f_lt_below x q : f_lt x (FFin q) = true <-> below x q.
Proof.
  destruct x; simpl; try (split; [discriminate | tauto]); try tauto.
  unfold f_lt; simpl. rewrite Qlt_alt. destruct (q0 ?= q)%Q; split; congruence.
Qed.

Lemma f_le_at_most x q : f_le x (FFin q) = true <-> at_most x q.
Proof.
  destruct x; simpl; try (split; [discriminate | tauto]); try tauto.
  unfold f_le; simpl. rewrite Qle_alt. destruct (q0 ?= q)%Q; split; congruence.
Qed.

Lemma f_gt_above x q : f_gt x (FFin q) = true <-> above x q.
Proof.
  destruct x; simpl; try (split; [discriminate | tauto]); try tauto.
  unfold f_gt; simpl. rewrite Qgt_alt. destruct (q0 ?= q)%Q; split; congruence.
Qed.

Lemma f_ge_at_least x q : f_ge x (FFin q) = true <-> at_least x q.
Proof.
  destruct x; simpl; try (split; [discriminate | tauto]); try tauto.
  unfold f_ge; simpl. rewrite Qge_alt. destruct (q0 ?= q)%Q; split; congruence.
Qed.

Lemma below_not_above x p q : (p <= q)%Q -> below x p -> ~ above x q.
Proof. destruct x; simpl; try tauto. intros. lra. Qed.

Lemma at_most_not_above x q : at_most x q -> ~ above x q.
Proof. destruct x; simpl; try tauto. intros. lra. Qed.

Lemma at_least_not_below x q : at_least x q -> ~ below x q.
Proof. destruct x; simpl; try tauto. intros. lra. Qed.

Lemma above_not_at_most x p q : (p <= q)%Q -> above x q -> ~ at_most x p.
Proof. destruct x; simpl; try tauto. intros. lra. Qed.

Lemma below_not_at_least x p q : (p <= q)%Q -> below x p -> ~ at_least x q.
Proof. destruct x; simpl; try tauto. intros. lra. Qed.

Lemma at_most_le x p q : (p <= q)%Q -> at_most x p -> at_most x q.
Proof. destruct x; simpl; try tauto. intros. lra. Qed.

Lemma at_least_le x p q : (p <= q)%Q -> at_least x q -> at_least x p.
Proof. destruct x; simpl; try tauto. intros. lra. Qed.

Lemma py_cmp_number op v n x :
  as_number v = Some x -> py_cmp op v (PInt n) = Ok (op x (FFin (inject_Z n))).
Proof. intros H. unfold py_cmp. by rewrite H. Qed.

Lemma is_number_value v x : as_number v = Some x -> is_number v = true.
Proof. intros H. unfold is_number. by rewrite H. Qed.

(** Decide a comparison of the code from the facts at hand. *)
Lemma bool_true_iff_false (b : bool) (P : Prop) : (b = true <-> P) -> ~ P -> b = false.
Proof. destruct b; intuition congruence. Qed.

Ltac decide_cmp :=
  repeat match goal with
  | |- context [f_le ?x (FFin ?q)] =>
      first [ rewrite (proj2 (f_le_at_most x q)) by eauto using at_most_le
            | rewrite (bool_true_iff_false _ _ (f_le_at_most x q))
                by (eapply above_not_at_most; [|eassumption]; lra) ]
  | |- context [f_ge ?x (FFin ?q)] =>
      first [ rewrite (proj2 (f_ge_at_least x q)) by eauto using at_least_le
            | rewrite (bool_true_iff_false _ _ (f_ge_at_least x q))
                by (eapply below_not_at_least; [|eassumption]; lra) ]
  | |- context [f_gt ?x (FFin ?q)] =>
      first [ rewrite (proj2 (f_gt_above x q)) by assumption
            | rewrite (bool_true_iff_false _ _ (f_gt_above x q))
                by first [ eapply below_not_above; [|eassumption]; lra
                         | eapply at_most_not_above; eassumption ] ]
  | |- context [f_lt ?x (FFin ?q)] =>
      first [ rewrite (proj2 (f_lt_below x q)) by assumption
            | rewrite (bool_true_iff_false _ _ (f_lt_below x q))
                by (eapply at_least_not_below; eassumption) ]
  end.

(** * Runs and their logs *)

Import St Dashboard.

Lemma bind_run {A B} (m : M A) (f : A -> M B) :
  (m ≫= f) = match m.2 with
              | Ok a => (m.1 ++ (f a).1, (f a).2)
              | Raise e => (m.1, Raise e)
              end.
Proof. reflexivity. Qed.

Lemma bind_log {A B} (m : M A) (f : A -> M B) :
  (m ≫= f).1 = m.1 ++ match m.2 with Ok a => (f a).1 | Raise _ => [] end.
Proof. rewrite bind_run. destruct (m.2); simpl; by rewrite ?app_nil_r. Qed.

Lemma in_container_app c l1 l2 :
  in_container c (l1 ++ l2) = in_container c l1 ++ in_container c l2.
Proof. unfold in_container. by rewrite filter_app, fmap_app. Qed.

Lemma in_container_other c c' l :
  c' <> c -> Forall (fun e : event => e.1 = c') l -> in_container c l = [].
Proof.
  intros Hc. unfold in_container. induction 1 as [|e l He _ IH]; [done|].
  rewrite filter_cons_False by congruence. exact IH.
Qed.

Lemma within_log {A} c (m : M A) :
  Forall (fun e : event => e.1 = c) (within c m).1.
Proof. unfold within; simpl. induction (m.1); constructor; auto. Qed.

Lemma when_bundle_truthy d body :
  truthy (PDict d) = true -> when_bundle (Some d) body = body d.
Proof. intros H. unfold when_bundle. by rewrite H. Qed.

Lemma dict_get_lookup (d : dict) k dflt v :
  d !! k = Some v -> dict_get d k dflt = v.
Proof. intros H. unfold dict_get. by rewrite H. Qed.

Lemma py_getitem_dict (d : dict) k v :
  d !! k = Some v -> py_getitem (PDict d) k = Ok v.
Proof. intros H. unfold py_getitem. by rewrite H. Qed.

(** ** The blocks of the citizens dashboard *)

Lemma comfort_recommendation_number t x :
  as_number t = Some x ->
  comfort_recommendation t = emit (comfort_widget (temp_class x)).
Proof.
  intros H. unfold comfort_recommendation, temp_class.
  rewrite (is_number_value _ _ H).
  unfold py_gt, py_lt. rewrite !(py_cmp_number _ _ _ _ H).
  change (inject_Z 35) with 35%Q. change (inject_Z 15) with 15%Q.
  destruct (f_gt x (FFin 35)); [reflexivity|].
  destruct (f_lt x (FFin 15)); reflexivity.
Qed.

Lemma air_quality_advice_number p x :
  as_number p = Some x ->
  air_quality_advice p
  = (write [Lit "**PM2.5:** "; Val p; Lit " μg/m³"];;
     emit (air_widget (air_class x))).
Proof.
  intros H. unfold air_quality_advice, air_class.
  rewrite (is_number_value _ _ H).
  unfold py_le. rewrite !(py_cmp_number _ _ _ _ H).
  change (inject_Z 25) with 25%Q. change (inject_Z 50) with 50%Q.
  destruct (f_le x (FFin 25)); [reflexivity|].
  destruct (f_le x (FFin 50)); reflexivity.
Qed.

Lemma comfort_recommendation_ok t : (comfort_recommendation t).2 = Ok tt.
Proof.
  destruct (as_number t) as [x|] eqn:H.
  - by rewrite (comfort_recommendation_number _ _ H).
  - unfold comfort_recommendation, is_number. by rewrite H.
Qed.

Lemma air_quality_advice_ok p : (air_quality_advice p).2 = Ok tt.
Proof.
  destruct (as_number p) as [x|] eqn:H.
  - by rewrite (air_quality_advice_number _ _ H).
  - unfold air_quality_advice, is_number. by rewrite H.
Qed.

Lemma number_in_is_number b k v : number_in b k = Some v -> is_number v = true.
Proof.
  unfold number_in. destruct b as [d|]; [|done].
  destruct (truthy (PDict d)); [|done]. simpl.
  destruct (is_number (dict_get d k PNone)) eqn:E; [|done].
  by intros [= <-].
Qed.

Lemma py_and_gt_ok v n :
  is_number v = true -> exists b, py_and v (py_gt v (PInt n)) = Ok b.
Proof.
  unfold is_number, py_and, py_gt, py_cmp.
  destruct (as_number v); [|done]. intros _.
  destruct (truthy v); eauto.
Qed.

(** The health recommendations write to the main container only and do
    not raise. *)
Lemma health_recommendations_run w a :
  (health_recommendations w a).2 = Ok tt /\
  Forall (fun e : event => e.1 = Main) (health_recommendations w a).1.
Proof.
  unfold health_recommendations.
  destruct (number_in w "temperature_2m") as [t|] eqn:Ht;
    destruct (number_in a "pm2_5") as [p|] eqn:Hp.
  all: try (destruct (py_and_gt_ok t 35 (number_in_is_number _ _ _ Ht))
              as [[|] ->]).
  all: try (destruct (py_and_gt_ok p 25 (number_in_is_number _ _ _ Hp))
              as [[|] ->]).
  all: split; [reflexivity | repeat constructor].
Qed.

(** The two columns do not raise. *)
Lemma weather_column_ok w : (weather_column w).2 = Ok tt.
Proof.
  unfold weather_column, when_bundle. destruct w as [d|]; [|reflexivity].
  destruct (truthy (PDict d)); [|reflexivity].
  rewrite !bind_run. cbn [subheader write emit emit_in fst snd].
  rewrite comfort_recommendation_ok. reflexivity.
Qed.

Lemma air_quality_column_ok a : (air_quality_column a).2 = Ok tt.
Proof.
  unfold air_quality_column, when_bundle. destruct a as [d|]; [|reflexivity].
  destruct (truthy (PDict d)); [|reflexivity].
  rewrite !bind_run. cbn [subheader write emit emit_in fst snd].
  rewrite air_quality_advice_ok. reflexivity.
Qed.

(** The log of the citizens dashboard, block by block. *)
Lemma render_citizens_dashboard_log w a :
  (render_citizens_dashboard w a).1
  = [(Main, WInfo "🏠 **For Citizens**: Daily life climate information and health advisories");
     (Main, WColumns 2)]
    ++ (within (Col 2 0) (weather_column w)).1
    ++ (within (Col 2 1) (air_quality_column a)).1
    ++ (health_recommendations w a).1.
Proof.
  unfold render_citizens_dashboard.
  rewrite !bind_log. cbn [info columns emit emit_in fst snd within].
  rewrite weather_column_ok, air_quality_column_ok. reflexivity.
Qed.

Lemma render_citizens_dashboard_ok w a : (render_citizens_dashboard w a).2 = Ok tt.
Proof.
  unfold render_citizens_dashboard.
  rewrite !bind_run. cbn [info columns emit emit_in fst snd within].
  rewrite weather_column_ok. cbn [fst snd]. rewrite air_quality_column_ok.
  cbn [fst snd]. apply health_recommendations_run.
Qed.

Lemma weather_column_number wd t x :
  truthy (PDict wd) = true ->
  wd !! "temperature_2m" = Some t ->
  as_number t = Some x ->
  weather_column (Some wd)
  = ((fun w => (Main, w)) <$> weather_readings wd ++ [comfort_widget (temp_class x)],
     Ok tt).
Proof.
  intros Hw Ht Hx. unfold weather_column.
  rewrite (when_bundle_truthy wd) by done. cbn zeta.
  rewrite (comfort_recommendation_number _ x)
    by (by rewrite (dict_get_lookup _ _ _ _ Ht)).
  reflexivity.
Qed.

Lemma air_quality_column_number ad p x :
  truthy (PDict ad) = true ->
  ad !! "pm2_5" = Some p ->
  as_number p = Some x ->
  air_quality_column (Some ad)
  = ((fun w => (Main, w)) <$> air_readings p ++ [air_widget (air_class x)],
     Ok tt).
Proof.
  intros Ha Hp Hx. unfold air_quality_column.
  rewrite (when_bundle_truthy ad) by done. cbn zeta.
  rewrite (dict_get_lookup _ _ _ _ Hp).
  rewrite (air_quality_advice_number _ _ Hx).
  reflexivity.
Qed.

Lemma in_container_within_same {A} c (m : M A) :
  in_container c (within c m).1 = m.1.*2.
Proof.
  unfold within, in_container; cbn [fst].
  induction (m.1) as [|e l IH]; [done|].
  cbn [List.map]. rewrite filter_cons_True by done.
  cbn [fmap list_fmap] in *. by rewrite IH.
Qed.

Lemma in_container_within c (l : list widget) :
  in_container c (within c ((fun w => (Main, w)) <$> l, Ok tt)).1 = l.
Proof.
  rewrite in_container_within_same. cbn [fst].
  induction l as [|w l IH]; [done|]. cbn [fmap list_fmap] in *. by rewrite IH.
Qed.

Lemma citizens_weather_column wd air t x :
  truthy (PDict wd) = true ->
  wd !! "temperature_2m" = Some t ->
  as_number t = Some x ->
  in_container (Col 2 0) (render_citizens_dashboard (Some wd) air).1
  = weather_readings wd ++ [comfort_widget (temp_class x)].
Proof.
  intros Hw Ht Hx. rewrite render_citizens_dashboard_log.
  rewrite (weather_column_number _ _ _ Hw Ht Hx).
  rewrite !in_container_app, in_container_within.
  rewrite (in_container_other (Col 2 0) (Col 2 1) (within _ _).1)
    by (done || apply within_log).
  rewrite (in_container_other (Col 2 0) Main (health_recommendations _ _).1)
    by (done || apply health_recommendations_run).
  by rewrite !app_nil_r.
Qed.

Lemma citizens_air_column w ad p x :
  truthy (PDict ad) = true ->
  ad !! "pm2_5" = Some p ->
  as_number p = Some x ->
  in_container (Col 2 1) (render_citizens_dashboard w (Some ad)).1
  = air_readings p ++ [air_widget (air_class x)].
Proof.
  intros Ha Hp Hx. rewrite render_citizens_dashboard_log.
  rewrite (air_quality_column_number _ _ _ Ha Hp Hx).
  rewrite !in_container_app, in_container_within.
  rewrite (in_container_other (Col 2 1) (Col 2 0) (within _ _).1)
    by (done || apply within_log).
  rewrite (in_container_other (Col 2 1) Main (health_recommendations _ _).1)
    by (done || apply health_recommendations_run).
  by rewrite !app_nil_r.
Qed.

(** ** The colour codings of the map *)

Import MapUtils.

Lemma air_zone_style_number p x :
  as_number p = Some x -> air_zone_style p = Ok (air_marker (air_class x)).
Proof.
  intros H. unfold air_zone_style, air_class, py_le.
  rewrite !(py_cmp_number _ _ _ _ H).
  change (inject_Z 25) with 25%Q. change (inject_Z 50) with 50%Q.
  destruct (f_le x (FFin 25)); [reflexivity|].
  destruct (f_le x (FFin 50)); reflexivity.
Qed.

Lemma weather_marker_style_number p x :
  as_number p = Some x -> weather_marker_style p = Ok (air_marker (station_class x)).
Proof.
  intros H. unfold weather_marker_style, station_class, py_le.
  rewrite !(py_cmp_number _ _ _ _ H).
  change (inject_Z 12) with 12%Q. change (inject_Z 35) with 35%Q.
  destruct (f_le x (FFin 12)); [reflexivity|].
  destruct (f_le x (FFin 35)); reflexivity.
Qed.

Lemma lake_style_number h x :
  as_number h = Some x -> lake_style h = Ok (lake_marker (lake_class x)).
Proof.
  intros H. unfold lake_style, lake_class, py_ge.
  rewrite !(py_cmp_number _ _ _ _ H).
  change (inject_Z 70) with 70%Q. change (inject_Z 50) with 50%Q.
  destruct (f_ge x (FFin 70)); [reflexivity|].
  destruct (f_ge x (FFin 50)); reflexivity.
Qed.

Lemma color_health_score_number h x :
  as_number h = Some x -> color_health_score h = Ok (lake_cell (lake_class x)).
Proof.
  intros H. unfold color_health_score, lake_class, py_ge.
  rewrite !(py_cmp_number _ _ _ _ H).
  change (inject_Z 70) with 70%Q. change (inject_Z 50) with 50%Q.
  destruct (f_ge x (FFin 70)); [reflexivity|].
  destruct (f_ge x (FFin 50)); reflexivity.
Qed.

(** The classes computed by the code are the rows of the table. *)
Lemma temperature_rule_class x c : temperature_rule x c -> temp_class x = c.
Proof. unfold temp_class. destruct 1; by decide_cmp. Qed.

Lemma pm25_rule_class x c : pm25_rule x c -> air_class x = c.
Proof. unfold air_class. destruct 1; by decide_cmp. Qed.

Lemma station_pm25_rule_class x c : station_pm25_rule x c -> station_class x = c.
Proof. unfold station_class. destruct 1; by decide_cmp. Qed.

Lemma lake_rule_class x c : lake_rule x c -> lake_class x = c.
Proof. unfold lake_class. destruct 1; by decide_cmp. Qed.

(** * Properties of the views *)

(** C2.  For every numeric temperature supplied to the citizens dashboard,
    the weather column lists the three readings and then the advice of the
    category of the table: Cool below 15, Pleasant from 15 to 35 (both
    bounds included), VeryHot above 35. *)
Theorem citizens_temperature_classification
    (weather_data : dict) (air_quality_data : option dict)
    (t : pyval) (x : pyfloat) (c : temp_category) :
  truthy (PDict weather_data) = true ->
  weather_data !! "temperature_2m" = Some t ->
  as_number t = Some x ->
  temperature_rule x c ->
  in_container (Col 2 0)
    (render_citizens_dashboard (Some weather_data) air_quality_data).1
  = weather_readings weather_data ++ [comfort_widget c]
  /\ shown (comfort_recommendation (PInt 15)) = [comfort_widget Pleasant]
  /\ shown (comfort_recommendation (PInt 35)) = [comfort_widget Pleasant].
Proof.
  intros Hw Ht Hx Hc. split; [|split; reflexivity].
  rewrite (citizens_weather_column _ _ _ _ Hw Ht Hx).
  by rewrite (temperature_rule_class _ _ Hc).
Qed.

Lemma citizens_temperature_classification_witness :
  in_container (Col 2 0)
    (render_citizens_dashboard (Some {[ "temperature_2m" := PInt 15 ]}) None).1
  = weather_readings {[ "temperature_2m" := PInt 15 ]} ++ [comfort_widget Pleasant].
Proof.
  refine (proj1 (citizens_temperature_classification
            {[ "temperature_2m" := PInt 15 ]} None (PInt 15) (FFin 15) Pleasant
            _ _ _ _)).
  - reflexivity.
  - reflexivity.
  - reflexivity.
  - apply temperature_pleasant; simpl; lra.
Defined.



(** The table of the water board: the dataframe and the styles of its
    Health Score column. *)
Lemma water_board_table now w n :
  exists df,
    (render_water_board_dashboard now w n).1 !! 2%nat
    = Some (Main, WDataframe df true)
    /\ Pandas.df_styles df
       = [("Health Score",
           lake_cell <$> [LakePoor; LakeGood; LakeGood; LakeFair; LakeFair])].
Proof. eexists. split; reflexivity. Qed.





(** In the citizens dashboard a reading that is absent or not a number is
    shown as it is and gets no advice. *)
Lemma citizens_reading_without_number (v : pyval) :
  as_number v = None ->
  shown (comfort_recommendation v) = [] /\ shown (air_quality_advice v) = [].
Proof.
  intros H. unfold comfort_recommendation, air_quality_advice, is_number.
  by rewrite H.
Qed.

(** C1.  Where the code departs from the specification: with no PM2.5 reading in
    the bundle, [add_weather_markers] classifies the default 0 as Good, and
    with no temperature reading the electricity dashboard shows 25 degrees
    and a low cooling demand; a reading that is present and null raises
    [TypeError] in both.  The citizens dashboard, given the same bundles,
    shows no category. *)
Theorem missing_reading_takes_default :
  let base := create_base_map (fl 12.9716) (fl 77.5946) 11 in
  add_weather_markers base None (Some bundle_without_pm25)
  = Ok (Folium.add_to
          (air_pin bundle_without_pm25 (fl 12.9716) (fl 77.5946) (PInt 0)
             (air_marker Good)) base)
  /\ shown (current_conditions (Some bundle_without_temperature))
     = [WMetric "Current Temperature" [Val (PInt 25); Lit "°C"] None;
        WMetric "Cooling Demand" [Lit "Low"] (Some "→ Stable")]
  /\ add_weather_markers base None (Some bundle_with_null_pm25) = Raise TypeError
  /\ (current_conditions (Some bundle_with_null_temperature)).2 = Raise TypeError
  /\ shown (air_quality_column (Some bundle_without_pm25))
     = [WSubheader [Lit "💨 Air Quality"]]
  /\ shown (air_quality_column (Some bundle_with_null_pm25))
     = [WSubheader [Lit "💨 Air Quality"]]
  /\ adjusted_demand (Some bundle_without_temperature) = Ok base_demand
  /\ adjusted_demand (Some bundle_with_null_temperature) = Ok base_demand.
Proof. repeat split; vm_compute; reflexivity. Qed.

(** C6, as the specification states it, fails: at 15 degrees the advice is
    Pleasant, where the stricter of the two adjacent categories is Cool. *)
Lemma boundary_is_not_stricter :
  shown (comfort_recommendation (PInt 15)) = [comfort_widget Pleasant]
  /\ stricter temp_severity Cool Pleasant = Cool
  /\ ~ boundary_policy (@stricter).
Proof.
  split; [reflexivity|split; [reflexivity|]].
  intros [H _].
  specialize (H 15 Cool Pleasant (PInt 15)).
  assert (Hin : (15, (Cool, Pleasant)) ∈ temperature_boundaries)
    by (unfold temperature_boundaries; rewrite !elem_of_cons; tauto).
  specialize (H Hin (ex_intro _ 15%Q (conj eq_refl (Qeq_refl _)))).
  vm_compute in H. discriminate H.
Qed.

(** C6, amended.  A value exactly on a boundary gets the milder of the two
    categories that meet there: 15 and 35 degrees are Pleasant, a PM2.5 of
    25 is Good and of 50 is Moderate, a lake score of 50 is Fair and of 70
    is Good. *)
Theorem boundary_is_milder : boundary_policy (@milder).
Proof.
  split; [|split].
  - intros b lo hi v Hin (q & Hq & Hb).
    rewrite (comfort_recommendation_number _ _ Hq).
    unfold temperature_boundaries in Hin. rewrite !elem_of_cons in Hin.
    destruct Hin as [[= -> -> ->]|[[= -> -> ->]|Hin]]; [| |by inversion Hin].
    + rewrite (temperature_rule_class (FFin q) Pleasant); [reflexivity|].
      apply temperature_pleasant; simpl; unfold inject_Z in Hb; lra.
    + rewrite (temperature_rule_class (FFin q) Pleasant); [reflexivity|].
      apply temperature_pleasant; simpl; unfold inject_Z in Hb; lra.
  - intros b lo hi v Hin (q & Hq & Hb).
    rewrite (air_quality_advice_number _ _ Hq).
    unfold pm25_boundaries in Hin. rewrite !elem_of_cons in Hin.
    destruct Hin as [[= -> -> ->]|[[= -> -> ->]|Hin]]; [| |by inversion Hin].
    + rewrite (pm25_rule_class (FFin q) Good); [reflexivity|].
      apply pm25_good; simpl; unfold inject_Z in Hb; lra.
    + rewrite (pm25_rule_class (FFin q) Moderate); [reflexivity|].
      apply pm25_moderate; simpl; unfold inject_Z in Hb; lra.
  - intros b lo hi v Hin (q & Hq & Hb).
    rewrite (lake_style_number _ _ Hq).
    unfold lake_boundaries in Hin. rewrite !elem_of_cons in Hin.
    destruct Hin as [[= -> -> ->]|[[= -> -> ->]|Hin]]; [| |by inversion Hin].
    + rewrite (lake_rule_class (FFin q) LakeFair); [reflexivity|].
      apply lake_fair; simpl; unfold inject_Z in Hb; lra.
    + rewrite (lake_rule_class (FFin q) LakeGood); [reflexivity|].
      apply lake_good; simpl; unfold inject_Z in Hb; lra.
Qed.

(** C7, as the specification states it, fails: the water-board view, run with the
    same arguments at two readings of the clock one week apart, shows two
    different trend charts. *)
Lemma water_board_view_reads_the_clock :
  render_dashboard (fun _ => 0) "BWSSB (Water Board)" None None None
  <> render_dashboard (fun _ => Pandas.timedelta_days 7) "BWSSB (Water Board)"
       None None None.
Proof.
  intros H. apply (f_equal (fun r => r.1 !! 5%nat)) in H.
  vm_compute in H. discriminate H.
Qed.

(** C7, amended.  Two runs of [render_dashboard] on the same arguments show
    the same widgets and end the same way, whatever the clock, for every
    stakeholder other than the water board; for the water board they do
    when the two readings of the clock agree as well. *)
Theorem render_dashboard_deterministic
    (now1 now2 : nat -> Z) (stakeholder : string)
    (weather_data air_quality_data nasa_data : option dict) :
  stakeholder <> "BWSSB (Water Board)"
  \/ (now1 0%nat = now2 0%nat /\ now1 1%nat = now2 1%nat) ->
  render_dashboard now1 stakeholder weather_data air_quality_data nasa_data
  = render_dashboard now2 stakeholder weather_data air_quality_data nasa_data.
Proof.
  intros H. unfold render_dashboard.
  destruct (String.eqb stakeholder "Citizens"); [reflexivity|].
  destruct (String.eqb stakeholder "BBMP (City Planning)"); [reflexivity|].
  destruct (String.eqb_spec stakeholder "BWSSB (Water Board)") as [->|Hne];
    [|reflexivity].
  destruct H as [H|[H0 H1]]; [done|].
  unfold render_water_board_dashboard. by rewrite H0, H1.
Qed.

Lemma render_dashboard_deterministic_witness :
  render_dashboard (fun _ => 0) "BESCOM (Electricity)"
    (Some {[ "temperature_2m" := PInt 31 ]}) None None
  = render_dashboard (fun _ => Pandas.usec_per_day) "BESCOM (Electricity)"
      (Some {[ "temperature_2m" := PInt 31 ]}) None None.
Proof.
  refine (render_dashboard_deterministic (fun _ => 0) (fun _ => Pandas.usec_per_day)
            "BESCOM (Electricity)" (Some {[ "temperature_2m" := PInt 31 ]})
            None None _).
  left. discriminate.
Defined.

(** ** What the citizens view shows *)

Lemma omap_plain (l : list widget) :
  Forall plain l -> omap metric_line l = [] /\ filter (fun w => is_map w = true) l = [].
Proof.
  induction 1 as [|w l [Hm Hf] _ [IH1 IH2]]; [done|].
  cbn [omap list_omap]. rewrite Hm. split; [exact IH1|].
  rewrite filter_cons_False by (rewrite Hf; discriminate). exact IH2.
Qed.

Lemma comfort_recommendation_plain t :
  Forall plain (shown (comfort_recommendation t)).
Proof.
  destruct (as_number t) as [x|] eqn:H.
  - rewrite (comfort_recommendation_number _ _ H).
    destruct (temp_class x); repeat constructor.
  - unfold comfort_recommendation, is_number. rewrite H. constructor.
Qed.

Lemma health_recommendations_plain w a :
  Forall plain (shown (health_recommendations w a)).
Proof.
  unfold health_recommendations.
  destruct (number_in w "temperature_2m") as [t|] eqn:Ht;
    destruct (number_in a "pm2_5") as [p|] eqn:Hp.
  all: try (destruct (py_and_gt_ok t 35 (number_in_is_number _ _ _ Ht))
              as [[|] ->]).
  all: try (destruct (py_and_gt_ok p 25 (number_in_is_number _ _ _ Hp))
              as [[|] ->]).
  all: repeat constructor.
Qed.

Lemma weather_column_shown wd :
  truthy (PDict wd) = true ->
  shown (weather_column (Some wd))
  = weather_readings wd
    ++ shown (comfort_recommendation (dict_get wd "temperature_2m" (PStr "N/A"))).
Proof.
  intros Hw. unfold weather_column. rewrite (when_bundle_truthy wd) by done.
  cbn zeta. unfold shown. rewrite !bind_log.
  cbn [subheader write emit emit_in fst snd]. reflexivity.
Qed.

Lemma air_quality_column_shown ad :
  truthy (PDict ad) = true ->
  shown (air_quality_column (Some ad))
  = [WSubheader [Lit "💨 Air Quality"]]
    ++ shown (air_quality_advice (dict_get ad "pm2_5" (PStr "N/A"))).
Proof.
  intros Ha. unfold air_quality_column. rewrite (when_bundle_truthy ad) by done.
  cbn zeta. unfold shown. rewrite !bind_log.
  cbn [subheader write emit emit_in fst snd]. reflexivity.
Qed.

Lemma air_quality_advice_lines p :
  omap metric_line (shown (air_quality_advice p))
  = (if is_number p then [("**PM2.5:** ", p)] else [])
  /\ filter (fun w => is_map w = true) (shown (air_quality_advice p)) = [].
Proof.
  destruct (as_number p) as [x|] eqn:H.
  - rewrite (air_quality_advice_number _ _ H), (is_number_value _ _ H).
    destruct (air_class x); split; reflexivity.
  - unfold air_quality_advice, is_number. rewrite H. split; reflexivity.
Qed.

Lemma within_shown {A} c (m : M A) : shown (within c m) = shown m.
Proof.
  unfold shown, within; cbn [fst].
  induction (m.1) as [|e l IH]; [done|]. cbn. by rewrite <- IH.
Qed.

Lemma render_citizens_dashboard_shown w a :
  shown (render_citizens_dashboard w a)
  = [WInfo "🏠 **For Citizens**: Daily life climate information and health advisories";
     WColumns 2]
    ++ shown (weather_column w) ++ shown (air_quality_column a)
    ++ shown (health_recommendations w a).
Proof.
  unfold shown at 1. rewrite render_citizens_dashboard_log.
  rewrite !fmap_app. f_equal. f_equal; [apply within_shown|].
  f_equal. apply within_shown.
Qed.

Lemma citizens_view_shown now w a n :
  shown (render_dashboard now "Citizens" w a n)
  = [WSubheader [Lit "Dashboard for "; Val (PStr "Citizens")]]
    ++ shown (render_citizens_dashboard w a).
Proof.
  unfold render_dashboard. cbn [String.eqb Ascii.eqb Bool.eqb].
  unfold shown. rewrite bind_log. reflexivity.
Qed.



(** ** The demand forecast *)

Lemma base_demand_curve : base_demand = PInt <$> base_curve.
Proof. reflexivity. Qed.

Lemma scale_by_factor g :
  mapM (fun d => py_mul d (PFloat g)) base_demand = Ok (scaled g).
Proof. reflexivity. Qed.

Lemma f_gt_fin a b : f_gt (FFin a) (FFin b) = true <-> (b < a)%Q.
Proof. apply (f_gt_above (FFin a) b). Qed.

Lemma f_le_fin a b : f_le (FFin a) (FFin b) = true <-> (a <= b)%Q.
Proof. apply (f_le_at_most (FFin a) b). Qed.

(** The factor of a finite value [v], reached as [u = v - 25]. *)
Lemma py_max_factor v u :
  (u == v - 25)%Q ->
  exists g, py_max (fl 1.0) (PFloat (FFin (1.0 + u * 0.02))) = Ok (PFloat g)
            /\ factor_of (FFin v) g.
Proof.
  intros Hu. unfold py_max, py_gt, py_cmp, fl. cbn [as_number mbind result_bind mret result_ret].
  destruct (f_gt (FFin (1.0 + u * 0.02)) (FFin 1.0)) eqn:E.
  - eexists; split; [reflexivity|]. apply f_gt_fin in E.
    apply factor_high; [lra|]. rewrite Hu. lra.
  - eexists; split; [reflexivity|]. apply factor_low.
    destruct (Qlt_le_dec 25 v) as [Hlt|Hle]; [|exact Hle].
    exfalso. assert (f_gt (FFin (1.0 + u * 0.02)) (FFin 1.0) = true) as E'
      by (apply f_gt_fin; lra).
    congruence.
Qed.

Lemma scale_factor_number t x :
  as_number t = Some x ->
  exists g, scale_factor t = Ok (PFloat g) /\ factor_of x g.
Proof.
  intros Hx. unfold scale_factor.
  destruct t as [| [|] | z | [| |v|] | | | |]; try discriminate Hx;
    injection Hx as <-.
  - eexists; split; [reflexivity|]. apply factor_low. lra.
  - eexists; split; [reflexivity|]. apply factor_low. lra.
  - cbn [py_sub py_arith as_int as_number py_mul py_add fl mbind result_bind f_mul f_add].
    apply py_max_factor.
    unfold Z.sub. rewrite inject_Z_plus, inject_Z_opp. unfold inject_Z. lra.
  - eexists; split; [reflexivity|]. constructor.
  - eexists; split; [reflexivity|]. constructor.
  - cbn [py_sub py_arith as_int as_number py_mul py_add fl mbind result_bind
         f_mul f_add f_sub f_neg].
    apply py_max_factor. unfold inject_Z. lra.
  - eexists; split; [reflexivity|]. constructor.
Qed.

(** The guard [if temp else 1.0] changes nothing: at zero the factor is 1
    either way. *)
Lemma temp_factor_scale_factor t x :
  as_number t = Some x -> temp_factor t = scale_factor t.
Proof.
  intros Hx. unfold temp_factor.
  destruct (truthy t) eqn:Ht; [reflexivity|].
  destruct t as [| [|] | z | [| |v|] | | | |]; try discriminate Hx;
    try discriminate Ht.
  - reflexivity.
  - cbn [truthy] in Ht. apply negb_false_iff, Z.eqb_eq in Ht. subst z. reflexivity.
  - cbn [truthy] in Ht. apply negb_false_iff, Qeq_bool_iff in Ht.
    unfold scale_factor.
    cbn [py_sub py_arith as_int as_number py_mul py_add fl mbind result_bind
         f_mul f_add f_sub f_neg].
    unfold py_max, py_gt, py_cmp, fl.
    cbn [as_number mbind result_bind mret result_ret].
    rewrite (bool_true_iff_false _ _ (f_gt_fin _ _)); [reflexivity|].
    unfold inject_Z. lra.
Qed.

Lemma py_le_float a b : py_le (PFloat a) (PFloat b) = Ok (f_le a b).
Proof. reflexivity. Qed.

Lemma py_le_int_float d b :
  py_le (PInt d) (PFloat b) = Ok (f_le (FFin (inject_Z d)) b).
Proof. reflexivity. Qed.

Lemma base_curve_positive : Forall (fun d => 0 < d) base_curve.
Proof. repeat constructor. Qed.

Lemma inject_Z_positive d : 0 < d -> (0 < inject_Z d)%Q.
Proof. intros H. unfold Qlt, inject_Z; simpl. lia. Qed.

(** Every hour of the scaled curve is at least the base demand. *)
Lemma scaled_at_least_base x g :
  factor_of x g -> pointwise_le base_demand (scaled g).
Proof.
  intros Hg. unfold pointwise_le, scaled. rewrite base_demand_curve.
  apply Forall2_fmap, Forall_Forall2_diag.
  eapply Forall_impl; [apply base_curve_positive|].
  intros d Hd%inject_Z_positive. rewrite py_le_int_float. f_equal.
  destruct Hg as [| | |v Hv|v c Hv Hc]; cbn [f_mul].
  - apply f_le_fin. lra.
  - apply f_le_fin. lra.
  - unfold f_scale_inf. apply Qgt_alt in Hd. rewrite Hd. reflexivity.
  - apply f_le_fin. lra.
  - apply f_le_fin. assert (1 < c)%Q by lra. nra.
Qed.

Lemma f_le_reading x x' :
  f_le x x' = true ->
  match x, x' with
  | FNaN, _ | _, FNaN => False
  | FFin v, FFin v' => (v <= v')%Q
  | FPosInf, FFin _ | FPosInf, FNegInf | FFin _, FNegInf => False
  | _, _ => True
  end.
Proof.
  destruct x, x'; try discriminate; try done.
  intros H. by apply f_le_fin.
Qed.

(** The scaled curve does not decrease when the reading increases. *)
Lemma scaled_monotone x x' g g' :
  factor_of x g -> factor_of x' g' -> f_le x x' = true ->
  pointwise_le (scaled g) (scaled g').
Proof.
  intros Hg Hg' Hle%f_le_reading. unfold pointwise_le, scaled.
  apply Forall2_fmap, Forall_Forall2_diag.
  eapply Forall_impl; [apply base_curve_positive|].
  intros d Hd%inject_Z_positive. rewrite py_le_float. f_equal.
  assert (Hinf : f_scale_inf true (inject_Z d) = FPosInf)
    by (unfold f_scale_inf; apply Qgt_alt in Hd; by rewrite Hd).
  destruct Hg as [| | |v Hv|v c Hv Hc]; destruct Hg' as [| | |v' Hv'|v' c' Hv' Hc'];
    try done; cbn [f_mul]; rewrite ?Hinf; try reflexivity;
    apply f_le_fin; try lra.
  - assert (1 < c')%Q by lra. nra.
  - assert (1 < c')%Q by lra. nra.
  - assert (c <= c')%Q by lra. nra.
Qed.

Lemma py_arith_number iop fop v w :
  is_number v = true -> is_number w = true ->
  exists r, py_arith iop fop v w = Ok r /\ is_number r = true.
Proof.
  unfold is_number, py_arith. intros Hv Hw.
  destruct (as_int v), (as_int w);
    destruct (as_number v), (as_number w); try discriminate; eauto.
Qed.

Lemma py_cmp_ok op v w :
  is_number v = true -> is_number w = true -> exists b, py_cmp op v w = Ok b.
Proof.
  unfold is_number, py_cmp. intros Hv Hw.
  destruct (as_number v), (as_number w); try discriminate; eauto.
Qed.

(** With a numeric temperature the first column of the electricity
    dashboard does not raise. *)
Lemma current_conditions_ok wd t :
  wd !! "temperature_2m" = Some t -> is_number t = true ->
  (current_conditions (Some wd)).2 = Ok tt.
Proof.
  intros Ht Hn. unfold current_conditions, when_bundle.
  destruct (truthy (PDict wd)); [|reflexivity].
  rewrite (dict_get_lookup _ _ _ _ Ht).
  destruct (py_cmp_ok f_gt t (PInt 30) Hn eq_refl) as [hot Hhot].
  unfold py_gt. rewrite !bind_run, Hhot. cbn [metric emit emit_in lift fst snd].
  destruct hot; [|reflexivity].
  destruct (py_arith_number Z.sub f_sub t (PInt 25) Hn eq_refl) as (a & Ha & Hna).
  destruct (py_arith_number Z.mul f_mul a (PInt 20) Hna eq_refl) as (b & Hb & Hnb).
  destruct (py_cmp_ok f_lt b (PInt 100) Hnb eq_refl) as [c Hc].
  unfold py_sub, py_mul, py_min, py_lt. rewrite Ha. cbn [mbind result_bind].
  rewrite Hb. cbn [mbind result_bind]. rewrite Hc. reflexivity.
Qed.

Lemma electricity_chart wd forecast :
  (current_conditions wd).2 = Ok tt ->
  adjusted_demand wd = Ok forecast ->
  forecast_chart forecast ∈ shown (render_electricity_dashboard wd).
Proof.
  intros Hcc Hf. unfold render_electricity_dashboard, shown.
  rewrite !bind_log. cbn [info columns metric subheader emit emit_in within lift fst snd].
  rewrite Hcc, Hf. cbn [plotly_chart emit emit_in fst snd].
  rewrite !fmap_app, !elem_of_app. do 7 right.
  apply elem_of_cons. left. reflexivity.
Qed.

Lemma adjusted_demand_number wd t x :
  truthy (PDict wd) = true -> wd !! "temperature_2m" = Some t ->
  as_number t = Some x ->
  adjusted_demand (Some wd)
  = (temp_factor ← temp_factor t; mapM (fun d => py_mul d temp_factor) base_demand).
Proof.
  intros Hw Ht Hx. unfold adjusted_demand, number_in.
  rewrite Hw, (dict_get_lookup _ _ _ _ Ht), (is_number_value _ _ Hx).
  reflexivity.
Qed.



(** ** The interactive map *)

Import Maps.

Lemma eqb_not_in (s k : string) (l : list string) :
  s ∉ l -> k ∈ l -> String.eqb s k = false.
Proof.
  intros Hs Hk. destruct (String.eqb_spec s k) as [->|]; [contradiction|done].
Qed.

Lemma lift_ok_bind {A B} (a : A) (f : A -> M B) : (lift (Ok a) ≫= f) = f a.
Proof. unfold mbind, M_bind, lift; cbn [fst snd app]. by destruct (f a). Qed.

Lemma mret_bind {A B} (a : A) (f : A -> M B) : (mret a ≫= f) = f a.
Proof. unfold mbind, M_bind, mret, M_ret; cbn [fst snd app]. by destruct (f a). Qed.

Lemma suggest_nearby_locations_sidebar lat lon map_type :
  (suggest_nearby_locations lat lon map_type).2 = Ok tt
  /\ Forall (fun e : event => e.1 = Sidebar)
       (suggest_nearby_locations lat lon map_type).1.
Proof.
  unfold suggest_nearby_locations.
  destruct (String.eqb map_type "water_monitoring");
    [|destruct (String.eqb map_type "air_quality");
      [|destruct (String.eqb map_type "heat_island")]];
    (split; [reflexivity|repeat constructor]).
Qed.

(** A click on a map of an unknown type: the sidebar only, and no error. *)
Lemma handle_map_click_unknown c map_type :
  map_type ∉ map_types -> click c ->
  (handle_map_click c map_type).2 = Ok tt
  /\ Forall (fun e : event => e.1 = Sidebar) (handle_map_click c map_type).1.
Proof.
  intros Hm [->|(lat & lng & ->)]; [split; [reflexivity|constructor]|].
  assert (H1 : String.eqb map_type "heat_island" = false)
    by (apply (eqb_not_in _ _ _ Hm); set_solver).
  assert (H2 : String.eqb map_type "air_quality" = false)
    by (apply (eqb_not_in _ _ _ Hm); set_solver).
  destruct (suggest_nearby_locations_sidebar (fl lat) (fl lng) map_type)
    as [Hs1 Hs2].
  unfold handle_map_click.
  change (truthy (PDict {[ "lat" := fl lat; "lng" := fl lng ]})) with true.
  cbn [negb].
  change (py_get (PDict {[ "lat" := fl lat; "lng" := fl lng ]}) "lat")
    with (Ok (fl lat)).
  change (py_get (PDict {[ "lat" := fl lat; "lng" := fl lng ]}) "lng")
    with (Ok (fl lng)).
  rewrite !lift_ok_bind.
  destruct (truthy (fl lat) && truthy (fl lng)); [|split; [reflexivity|constructor]].
  rewrite H1, H2.
  destruct (suggest_nearby_locations (fl lat) (fl lng) map_type) as [l r].
  cbn [fst snd] in Hs1, Hs2. subst r.
  split; [reflexivity|]. repeat (constructor; [reflexivity|]). exact Hs2.
Qed.

(** C10.  For a map type outside the five known ones,
    [render_interactive_map] shows the base map, with its two tile layers
    and its layer control and nothing else on it, as the first and only
    widget of the page; and with the click [st_folium] reports, the run
    ends without error. *)
Theorem unknown_map_type_shows_base_map
    (map_data : dict) (lat lon : Q) (weather_data air_quality_data : option dict)
    (map_type : string) (c : pyval) :
  map_type ∉ map_types ->
  map_data !! "last_clicked" = Some c ->
  click c ->
  let run :=
    render_interactive_map map_data (fl lat) (fl lon) weather_data
      air_quality_data map_type in
  let base := create_base_map (fl lat) (fl lon) 11 in
  run.2 = Ok tt
  /\ in_container Main run.1 = [WFolium base 700 500]
  /\ Folium.children base
     = [Folium.TileLayer
          "https://server.arcgisonline.com/ArcGIS/rest/services/World_Imagery/MapServer/tile/{z}/{y}/{x}"
          (Some "Esri") "Satellite" false true;
        Folium.TileLayer "CartoDB positron" None "Light Map" false true;
        Folium.LayerControl]
  /\ filter (fun ch => Folium.is_overlay ch = true) (Folium.children base) = [].
Proof.
  intros Hm Hc Hclick run base. subst run base.
  destruct (handle_map_click_unknown c map_type Hm Hclick) as [Hh1 Hh2].
  unfold render_interactive_map.
  rewrite (eqb_not_in map_type "overview" _ Hm) by set_solver.
  rewrite (eqb_not_in map_type "heat_island" _ Hm) by set_solver.
  rewrite (eqb_not_in map_type "water_monitoring" _ Hm) by set_solver.
  rewrite (eqb_not_in map_type "air_quality" _ Hm) by set_solver.
  rewrite (eqb_not_in map_type "urban_growth" _ Hm) by set_solver.
  rewrite (py_getitem_dict _ _ _ Hc).
  pose proof (in_container_other Main Sidebar _ ltac:(done) Hh2) as Hh3.
  rewrite mret_bind, bind_run. cbn [emit emit_in fst snd]. rewrite lift_ok_bind.
  destruct (handle_map_click c map_type) as [l r].
  cbn [fst snd] in Hh1, Hh3. subst r.
  split; [|split; [|split]]; try reflexivity.
  - destruct (truthy c); reflexivity.
  - destruct (truthy c); [|reflexivity].
    change (in_container Main ([(Main, WFolium
              (create_base_map (fl lat) (fl lon) 11) 700 500)] ++ l)
            = [WFolium (create_base_map (fl lat) (fl lon) 11) 700 500]).
    rewrite in_container_app, Hh3. reflexivity.
Qed.

Lemma unknown_map_type_shows_base_map_witness :
  in_container Main
    (render_interactive_map
       {[ "last_clicked" := PDict {[ "lat" := fl 12.98; "lng" := fl 77.6 ]} ]}
       (fl 12.9716) (fl 77.5946) None None "satellite").1
  = [WFolium (create_base_map (fl 12.9716) (fl 77.5946) 11) 700 500].
Proof.
  refine (proj1 (proj2 (unknown_map_type_shows_base_map
            {[ "last_clicked" := PDict {[ "lat" := fl 12.98; "lng" := fl 77.6 ]} ]}
            12.9716 77.5946 None None "satellite"
            (PDict {[ "lat" := fl 12.98; "lng" := fl 77.6 ]}) _ _ _))).
  - unfold map_types. rewrite !elem_of_cons, elem_of_nil.
    intros [H|[H|[H|[H|[H|[]]]]]]; discriminate H.
  - reflexivity.
  - right. exists 12.98%Q, 77.6%Q. reflexivity.
Defined.

(** * Further properties *)

(** ** Stakeholders and errors *)

(** X1.  A stakeholder outside the six known ones gets the subheader
    "Dashboard for ..." and nothing else; the run ends without error. *)
Theorem unknown_stakeholder_shows_header_only
    (now : nat -> Z) (stakeholder : string)
    (weather_data air_quality_data nasa_data : option dict) :
  stakeholder ∉ stakeholders ->
  render_dashboard now stakeholder weather_data air_quality_data nasa_data
  = ([(Main, WSubheader [Lit "Dashboard for "; Val (PStr stakeholder)])], Ok tt).
Proof.
  intros Hs. unfold render_dashboard.
  rewrite (eqb_not_in stakeholder "Citizens" _ Hs) by set_solver.
  rewrite (eqb_not_in stakeholder "BBMP (City Planning)" _ Hs) by set_solver.
  rewrite (eqb_not_in stakeholder "BWSSB (Water Board)" _ Hs) by set_solver.
  rewrite (eqb_not_in stakeholder "BESCOM (Electricity)" _ Hs) by set_solver.
  rewrite (eqb_not_in stakeholder "Parks Department" _ Hs) by set_solver.
  rewrite (eqb_not_in stakeholder "Researchers" _ Hs) by set_solver.
  reflexivity.
Qed.

Lemma unknown_stakeholder_shows_header_only_witness :
  render_dashboard (fun _ => 0) "citizens" None None None
  = ([(Main, WSubheader [Lit "Dashboard for "; Val (PStr "citizens")])], Ok tt).
Proof.
  refine (unknown_stakeholder_shows_header_only (fun _ => 0) "citizens"
            None None None _).
  unfold stakeholders. rewrite !elem_of_cons, elem_of_nil.
  intros [H|[H|[H|[H|[H|[H|[]]]]]]]; discriminate H.
Defined.

(** X2.  Only the electricity view can raise: for every other stakeholder
    and whatever the bundles hold, [render_dashboard] ends without error. *)
Theorem views_other_than_electricity_never_raise
    (now : nat -> Z) (stakeholder : string)
    (weather_data air_quality_data nasa_data : option dict) :
  stakeholder <> "BESCOM (Electricity)" ->
  (render_dashboard now stakeholder weather_data air_quality_data nasa_data).2
  = Ok tt.
Proof.
  intros Hs. unfold render_dashboard. rewrite bind_run.
  cbn [subheader emit emit_in fst snd].
  destruct (String.eqb stakeholder "Citizens");
    [apply render_citizens_dashboard_ok|].
  destruct (String.eqb stakeholder "BBMP (City Planning)"); [reflexivity|].
  destruct (String.eqb stakeholder "BWSSB (Water Board)"); [reflexivity|].
  destruct (String.eqb_spec stakeholder "BESCOM (Electricity)"); [done|].
  destruct (String.eqb stakeholder "Parks Department"); [reflexivity|].
  destruct (String.eqb stakeholder "Researchers"); reflexivity.
Qed.

Lemma views_other_than_electricity_never_raise_witness :
  (render_dashboard (fun _ => 0) "Citizens"
     (Some {[ "temperature_2m" := PStr "hot" ]})
     (Some {[ "pm2_5" := PNone ]}) None).2 = Ok tt.
Proof.
  refine (views_other_than_electricity_never_raise (fun _ => 0) "Citizens" _ _ _ _).
  discriminate.
Defined.

Lemma adjusted_demand_ok w : exists forecast, adjusted_demand w = Ok forecast.
Proof.
  unfold adjusted_demand.
  destruct (number_in w "temperature_2m") as [t|] eqn:Ht; [|by eexists].
  pose proof (number_in_is_number _ _ _ Ht) as Hn. unfold is_number in Hn.
  destruct (as_number t) as [x|] eqn:Hx; [|discriminate].
  destruct (scale_factor_number _ _ Hx) as (g & Hg & _).
  rewrite (temp_factor_scale_factor _ _ Hx), Hg.
  exists (scaled g). apply scale_by_factor.
Qed.

(** How the first column of the electricity dashboard ends. *)
Lemma current_conditions_result w :
  (current_conditions w).2
  = match reading w "temperature_2m" with
    | Some t => if is_number t then Ok tt else Raise TypeError
    | None => Ok tt
    end.
Proof.
  unfold reading. destruct w as [d|]; [|reflexivity].
  destruct (truthy (PDict d)) eqn:Hd; [|by unfold current_conditions, when_bundle; rewrite Hd].
  destruct (d !! "temperature_2m") as [t|] eqn:Ht.
  - destruct (is_number t) eqn:Hn; [by apply (current_conditions_ok _ t)|].
    unfold current_conditions. rewrite (when_bundle_truthy d) by done. cbn zeta.
    rewrite (dict_get_lookup _ _ _ _ Ht).
    unfold py_gt, py_cmp. unfold is_number in Hn.
    destruct (as_number t); [discriminate|]. reflexivity.
  - unfold current_conditions. rewrite (when_bundle_truthy d) by done. cbn zeta.
    unfold dict_get. rewrite Ht. reflexivity.
Qed.



(** X4.  With a numeric temperature (25 when the bundle has none) the
    cooling demand of the electricity view is "Low" up to 30 degrees and
    100 percent above: the estimate [min(100, (temp - 25) * 20)] never
    shows a value below 100. *)
Theorem cooling_demand_is_low_or_full (weather_data : dict) (x : pyfloat) :
  truthy (PDict weather_data) = true ->
  as_number (dict_get weather_data "temperature_2m" (PInt 25)) = Some x ->
  let temp := dict_get weather_data "temperature_2m" (PInt 25) in
  (above x 30 ->
   shown (current_conditions (Some weather_data))
   = [WMetric "Current Temperature" [Val temp; Lit "°C"] None;
      WMetric "Cooling Demand" [Val (PInt 100); Lit "%"] (Some "↑ High")])
  /\ (~ above x 30 ->
      shown (current_conditions (Some weather_data))
      = [WMetric "Current Temperature" [Val temp; Lit "°C"] None;
         WMetric "Cooling Demand" [Lit "Low"] (Some "→ Stable")]).
Proof.
  intros Hd Hx temp. subst temp.
  unfold current_conditions. rewrite (when_bundle_truthy weather_data) by done.
  cbn zeta. set (t := dict_get weather_data "temperature_2m" (PInt 25)) in *.
  unfold py_gt. rewrite (py_cmp_number _ _ _ _ Hx).
  change (inject_Z 30) with 30%Q.
  split; intros Hab.
  - rewrite (proj2 (f_gt_above x 30) Hab).
    assert (Hmin : (a ← py_sub t (PInt 25); b ← py_mul a (PInt 20);
                    py_min (PInt 100) b) = Ok (PInt 100)).
    { unfold py_min, py_lt, py_cmp.
      destruct t as [| [|] | z | [| |v|] | | | |]; try discriminate Hx;
        injection Hx as <-; simpl in Hab; try contradiction; try lra.
      - cbn [py_sub py_mul py_arith as_int as_number mbind result_bind].
        rewrite (bool_true_iff_false _ _ (f_lt_below _ _)); [reflexivity|].
        simpl. unfold Qlt, inject_Z in *; simpl in *; lia.
      - cbn [py_sub py_mul py_arith as_int as_number mbind result_bind
             f_sub f_neg f_add f_mul].
        rewrite (bool_true_iff_false _ _ (f_lt_below _ _)); [reflexivity|].
        simpl. unfold inject_Z. lra.
      - reflexivity. }
    unfold shown. rewrite !bind_log. cbn [metric emit emit_in lift fst snd].
    rewrite Hmin. reflexivity.
  - rewrite (bool_true_iff_false _ _ (f_gt_above x 30) Hab). reflexivity.
Qed.

Lemma cooling_demand_is_low_or_full_witness :
  shown (current_conditions (Some {[ "temperature_2m" := fl 30.5 ]}))
  = [WMetric "Current Temperature" [Val (fl 30.5); Lit "°C"] None;
     WMetric "Cooling Demand" [Val (PInt 100); Lit "%"] (Some "↑ High")].
Proof.
  refine (proj1 (cooling_demand_is_low_or_full {[ "temperature_2m" := fl 30.5 ]}
                   (FFin 30.5) _ _) _).
  - reflexivity.
  - reflexivity.
  - simpl. lra.
Defined.

(** ** Recommendations and forecast *)

Lemma truthy_above t x q :
  as_number t = Some x -> (0 <= q)%Q -> above x q -> truthy t = true.
Proof.
  intros Hx Hq Hab.
  destruct t as [| [|] | z | [| |v|] | | | |]; try discriminate Hx;
    injection Hx as <-; simpl in Hab; try contradiction; try reflexivity.
  - lra.
  - cbn [truthy]. apply negb_true_iff, Z.eqb_neq. intros ->.
    unfold inject_Z in Hab. lra.
  - cbn [truthy]. apply negb_true_iff.
    destruct (Qeq_bool v 0) eqn:E; [|reflexivity].
    apply Qeq_bool_iff in E. lra.
Qed.

Lemma above_weaken x p q : (p <= q)%Q -> above x q -> above x p.
Proof. destruct x; simpl; try tauto. intros. lra. Qed.

Lemma py_and_gt_number t x n :
  as_number t = Some x -> 0 <= n ->
  py_and t (py_gt t (PInt n)) = Ok (f_gt x (FFin (inject_Z n))).
Proof.
  intros Hx Hn. unfold py_and, py_gt. rewrite (py_cmp_number _ _ _ _ Hx).
  destruct (f_gt x (FFin (inject_Z n))) eqn:E.
  - rewrite (truthy_above t x (inject_Z n) Hx); [reflexivity| |by apply f_gt_above].
    unfold Qle, inject_Z; simpl. lia.
  - by destruct (truthy t).
Qed.

Lemma number_in_reading d k t x :
  truthy (PDict d) = true -> d !! k = Some t -> as_number t = Some x ->
  number_in (Some d) k = Some t.
Proof.
  intros Hd Hk Hx. unfold number_in.
  by rewrite Hd, (dict_get_lookup _ _ _ _ Hk), (is_number_value _ _ Hx).
Qed.

(** X5.  The health recommendations of the citizens view agree with the
    advice of its two columns: the three heat lines exactly when the
    temperature is VeryHot, the three mask lines exactly when the air is
    not Good, and the line "Great conditions today" when neither applies. *)
Theorem recommendations_follow_the_advice
    (weather_data air_quality_data : dict) (t p : pyval) (x y : pyfloat)
    (ct : temp_category) (ca : air_category) :
  truthy (PDict weather_data) = true ->
  truthy (PDict air_quality_data) = true ->
  weather_data !! "temperature_2m" = Some t ->
  air_quality_data !! "pm2_5" = Some p ->
  as_number t = Some x ->
  as_number p = Some y ->
  temperature_rule x ct ->
  pm25_rule y ca ->
  shown (health_recommendations (Some weather_data) (Some air_quality_data))
  = [WSubheader [Lit "🏥 Health Recommendations"]]
    ++ match ct with VeryHot => heat_lines | _ => [] end
    ++ match ca with Good => [] | _ => mask_lines end
    ++ match ct, ca with
       | VeryHot, _ => []
       | _, Good => [great_line]
       | _, _ => []
       end.
Proof.
  intros Hw Ha Ht Hp Hx Hy Hct Hca. unfold health_recommendations.
  rewrite (number_in_reading _ _ _ _ Hw Ht Hx), (number_in_reading _ _ _ _ Ha Hp Hy).
  rewrite (py_and_gt_number _ _ 35 Hx) by lia.
  rewrite (py_and_gt_number _ _ 25 Hy) by lia.
  change (inject_Z 35) with 35%Q. change (inject_Z 25) with 25%Q.
  destruct Hct, Hca;
    try match goal with
        | H : above y 50 |- _ => pose proof (above_weaken _ 25 50 ltac:(lra) H)
        end;
    decide_cmp; reflexivity.
Qed.

Lemma recommendations_follow_the_advice_witness :
  shown (health_recommendations (Some {[ "temperature_2m" := PInt 36 ]})
           (Some {[ "pm2_5" := PInt 25 ]}))
  = [WSubheader [Lit "🏥 Health Recommendations"]] ++ heat_lines ++ [] ++ [].
Proof.
  refine (recommendations_follow_the_advice
            {[ "temperature_2m" := PInt 36 ]} {[ "pm2_5" := PInt 25 ]}
            (PInt 36) (PInt 25) (FFin 36) (FFin 25) VeryHot Good
            _ _ _ _ _ _ _ _); try reflexivity.
  - apply temperature_very_hot. simpl. lra.
  - apply pm25_good. simpl. lra.
Defined.

Lemma factor_of_up_to_25 x g : factor_of x g -> ~ above x 25 -> g = FFin 1.0.
Proof.
  intros Hg Hab. destruct Hg; try reflexivity; simpl in Hab; tauto.
Qed.



(** ** Layers of the map *)

Lemma extends_refl m : extends m m.
Proof.
  repeat split. exists []. split; [by rewrite app_nil_r|constructor].
Qed.

Lemma extends_trans m1 m2 m3 : extends m1 m2 -> extends m2 m3 -> extends m1 m3.
Proof.
  intros (H1 & H2 & H3 & l1 & H4 & H5) (G1 & G2 & G3 & l2 & G4 & G5).
  repeat split; try congruence.
  exists (l1 ++ l2). split; [by rewrite G4, H4, app_assoc|by apply Forall_app].
Qed.

Lemma extends_add_to c m : Folium.is_overlay c = true -> extends m (Folium.add_to c m).
Proof.
  intros Hc. repeat split. exists [c]. split; [reflexivity|by repeat constructor].
Qed.

Lemma layer_bind (f g : Folium.map -> result Folium.map) :
  layer f -> layer g -> layer (fun m => m1 ← f m; g m1).
Proof.
  intros Hf Hg m m' H. destruct (f m) as [m1|e] eqn:E; [|discriminate].
  exact (extends_trans _ _ _ (Hf _ _ E) (Hg _ _ H)).
Qed.

Lemma foldl_raise {A} (body : A -> Folium.map -> result Folium.map) l e :
  foldl (fun acc x => m ← acc; body x m) (Raise e) l = Raise e.
Proof. induction l as [|x l IH]; [reflexivity|exact IH]. Qed.

Lemma for_each_layer {A} (l : list A) (body : A -> Folium.map -> result Folium.map) :
  (forall x, layer (body x)) -> layer (for_each l body).
Proof.
  intros Hb. unfold for_each.
  induction l as [|x l IH]; intros m m' H.
  - injection H as <-. apply extends_refl.
  - cbn [foldl] in H. cbn [mbind result_bind] in H.
    destruct (body x m) as [m1|e] eqn:E.
    + exact (extends_trans _ _ _ (Hb x _ _ E) (IH _ _ H)).
    + rewrite foldl_raise in H. discriminate.
Qed.

Lemma add_weather_station_marker_layer w : layer (fun m => add_weather_station_marker m w).
Proof.
  intros m m' H. unfold add_weather_station_marker in H.
  destruct w as [d|]; [|injection H as <-; apply extends_refl].
  destruct (truthy (PDict d) && truthy (dict_get d "location" PNone));
    [|injection H as <-; apply extends_refl].
  destruct (py_getitem (PDict d) "location") as [loc|]; [|discriminate].
  cbn [mbind result_bind] in H.
  destruct (py_getitem loc "lat") as [lat|]; [|discriminate].
  destruct (py_getitem loc "lon") as [lon|]; [|discriminate].
  injection H as <-. by apply extends_add_to.
Qed.

Lemma add_air_quality_marker_layer a : layer (fun m => add_air_quality_marker m a).
Proof.
  intros m m' H. unfold add_air_quality_marker in H.
  destruct a as [d|]; [|injection H as <-; apply extends_refl].
  destruct (truthy (PDict d) && truthy (dict_get d "location" PNone));
    [|injection H as <-; apply extends_refl].
  destruct (py_getitem (PDict d) "location") as [loc|]; [|discriminate].
  cbn [mbind result_bind] in H.
  destruct (weather_marker_style (dict_get d "pm2_5" (PInt 0))) as [[color quality]|];
    [|discriminate].
  cbn [mbind result_bind] in H.
  destruct (py_getitem loc "lat") as [lat|]; [|discriminate].
  destruct (py_getitem loc "lon") as [lon|]; [|discriminate].
  injection H as <-. by apply extends_add_to.
Qed.

Lemma add_weather_markers_layer w a : layer (fun m => add_weather_markers m w a).
Proof.
  apply (layer_bind (fun m => add_weather_station_marker m w)
           (fun m => add_air_quality_marker m a)).
  - apply add_weather_station_marker_layer.
  - apply add_air_quality_marker_layer.
Qed.

Lemma add_water_bodies_layer : layer add_water_bodies.
Proof.
  unfold add_water_bodies. apply for_each_layer. intros lake m m' H.
  unfold add_water_body in H.
  destruct (lake_style (lake_health lake)) as [[color status]|]; [|discriminate].
  injection H as <-. by apply extends_add_to.
Qed.

Lemma add_air_quality_zones_layer a : layer (fun m => add_air_quality_zones m a).
Proof.
  unfold add_air_quality_zones. apply for_each_layer. intros st m m' H.
  unfold add_air_quality_zone in H.
  destruct (air_zone_style (station_pm25 st)) as [[color status]|]; [|discriminate].
  injection H as <-. by apply extends_add_to.
Qed.

Lemma add_urban_growth_markers_layer : layer add_urban_growth_markers.
Proof.
  unfold add_urban_growth_markers. apply for_each_layer. intros ar m m' H.
  injection H as <-. by apply extends_add_to.
Qed.

Lemma add_heat_island_layer_layer h : layer (fun m => add_heat_island_layer m h).
Proof.
  intros m m' H. unfold add_heat_island_layer in H.
  match type of H with
  | (?c ≫= _) = _ => destruct c as [[heat_spots cooling_zones]|] eqn:E
  end; [|discriminate].
  cbn [mbind result_bind] in H.
  match type of H with
  | (for_each _ ?b ?m0 ≫= _) = _ =>
      destruct (for_each heat_spots b m0) as [m1|] eqn:E1; [|discriminate];
      assert (H0 : extends m m0)
  end.
  { destruct heat_spots; [apply extends_refl|by apply extends_add_to]. }
  cbn [mbind result_bind] in H.
  eapply extends_trans; [exact H0|].
  eapply extends_trans.
  - eapply (for_each_layer heat_spots); [|exact E1].
    intros spot m2 m3 H2. injection H2 as <-. by apply extends_add_to.
  - eapply (for_each_layer cooling_zones); [|exact H].
    intros zone m2 m3 H2. injection H2 as <-. by apply extends_add_to.
Qed.

(** X7.  Every function that draws on the map keeps what is already there:
    when it succeeds, the centre, the zoom and the tiles are unchanged, the
    earlier children come first and in the same order, and what it adds are
    markers, circles or heat maps only. *)
Theorem layers_extend_the_map :
  (forall w a, layer (fun m => add_weather_markers m w a))
  /\ (forall h, layer (fun m => add_heat_island_layer m h))
  /\ layer add_water_bodies
  /\ layer add_urban_growth_markers
  /\ (forall a, layer (fun m => add_air_quality_zones m a))
  /\ layer add_city_landmarks
  /\ layer add_temperature_stations
  /\ layer add_water_quality_stations
  /\ layer add_pollution_sources
  /\ layer add_development_zones.
Proof.
  split; [exact add_weather_markers_layer|].
  split; [exact add_heat_island_layer_layer|].
  split; [exact add_water_bodies_layer|].
  split; [exact add_urban_growth_markers_layer|].
  split; [exact add_air_quality_zones_layer|].
  split; [unfold add_city_landmarks; cbn zeta; apply for_each_layer;
          intros x m m' H; injection H as <-; by apply extends_add_to|].
  split.
  { unfold add_temperature_stations; cbn zeta; apply for_each_layer.
    intros x m m' H.
    destruct (py_gt (tstation_temp x) (PInt 30)) as [[|]|]; [| |discriminate].
    - injection H as <-. by apply extends_add_to.
    - cbn [mbind result_bind] in H.
      destruct (py_gt (tstation_temp x) (PInt 28)) as [[|]|]; [| |discriminate];
        injection H as <-; by apply extends_add_to. }
  split; [unfold add_water_quality_stations; cbn zeta; apply for_each_layer;
          intros x m m' H; injection H as <-; by apply extends_add_to|].
  split; [unfold add_pollution_sources; cbn zeta; apply for_each_layer;
          intros x m m' H; injection H as <-; by apply extends_add_to|].
  unfold add_development_zones; cbn zeta; apply for_each_layer;
    intros x m m' H; injection H as <-; by apply extends_add_to.
Qed.

Lemma layers_extend_the_map_witness :
  exists m',
    add_water_bodies (create_base_map (fl 12.9716) (fl 77.5946) 11) = Ok m'
    /\ extends (create_base_map (fl 12.9716) (fl 77.5946) 11) m'.
Proof.
  eexists. split; [reflexivity|].
  apply (proj1 (proj2 (proj2 layers_extend_the_map))). reflexivity.
Defined.

Lemma no_location d :
  (forall loc, reading (Some d) "location" = Some loc -> truthy loc = false) ->
  truthy (PDict d) && truthy (dict_get d "location" PNone) = false.
Proof.
  intros H. unfold reading in H. destruct (truthy (PDict d)); [|reflexivity].
  cbn [andb]. unfold dict_get.
  destruct (d !! "location") as [loc|]; [by apply H|reflexivity].
Qed.

(** X8.  A bundle with no location (absent, null, empty) puts nothing on
    the map: with no location in either bundle [add_weather_markers] returns
    the map as it was. *)
Theorem no_location_no_marker
    (m : Folium.map) (weather_data air_quality_data : option dict) :
  (forall loc, reading weather_data "location" = Some loc -> truthy loc = false) ->
  (forall loc, reading air_quality_data "location" = Some loc -> truthy loc = false) ->
  add_weather_markers m weather_data air_quality_data = Ok m.
Proof.
  intros Hw Ha. unfold add_weather_markers.
  assert (H1 : add_weather_station_marker m weather_data = Ok m).
  { unfold add_weather_station_marker. destruct weather_data as [d|]; [|reflexivity].
    by rewrite (no_location d Hw). }
  rewrite H1. cbn [mbind result_bind].
  unfold add_air_quality_marker. destruct air_quality_data as [d|]; [|reflexivity].
  by rewrite (no_location d Ha).
Qed.

Lemma no_location_no_marker_witness :
  add_weather_markers (create_base_map (fl 12.9716) (fl 77.5946) 11)
    (Some {[ "temperature_2m" := fl 28.5 ]})
    (Some {[ "pm2_5" := PInt 80; "location" := PNone ]})
  = Ok (create_base_map (fl 12.9716) (fl 77.5946) 11).
Proof.
  refine (no_location_no_marker _ _ _ _ _).
  - intros loc H. vm_compute in H. discriminate H.
  - intros loc H. vm_compute in H. injection H as <-. reflexivity.
Defined.



(** X10.  An air-quality bundle with a location and a PM2.5 reading that is
    not a number makes the air-quality half of [add_weather_markers] raise
    [TypeError]; the comparison comes before the coordinates are read, so
    this holds whatever the location is. *)
Theorem non_numeric_pm25_raises
    (m : Folium.map) (air_quality_data : dict) (location p : pyval) :
  truthy (PDict air_quality_data) = true ->
  air_quality_data !! "location" = Some location ->
  truthy location = true ->
  air_quality_data !! "pm2_5" = Some p ->
  is_number p = false ->
  add_air_quality_marker m (Some air_quality_data) = Raise TypeError
  /\ add_weather_markers m None (Some air_quality_data) = Raise TypeError.
Proof.
  intros Ha Hl Ht Hp Hn.
  assert (H : add_air_quality_marker m (Some air_quality_data) = Raise TypeError).
  { unfold add_air_quality_marker.
    rewrite Ha, (dict_get_lookup _ _ _ _ Hl), Ht. cbn [andb].
    rewrite (py_getitem_dict _ _ _ Hl). cbn [mbind result_bind].
    rewrite (dict_get_lookup _ _ _ _ Hp).
    unfold weather_marker_style, py_le, py_cmp. unfold is_number in Hn.
    destruct (as_number p); [discriminate|]. reflexivity. }
  split; [exact H|]. unfold add_weather_markers. exact H.
Qed.

Lemma non_numeric_pm25_raises_witness :
  add_weather_markers (create_base_map (fl 12.9716) (fl 77.5946) 11) None
    (Some {[ "location" := PStr "Bengaluru"; "pm2_5" := PStr "N/A" ]})
  = Raise TypeError.
Proof.
  refine (proj2 (non_numeric_pm25_raises
                   (create_base_map (fl 12.9716) (fl 77.5946) 11)
                   {[ "location" := PStr "Bengaluru"; "pm2_5" := PStr "N/A" ]}
                   (PStr "Bengaluru") (PStr "N/A") _ _ _ _ _)); reflexivity.
Defined.



(** ** Clicks on the map *)

(** X12.  A click with a coordinate that is absent or zero is ignored: the
    test [if lat and lon] takes latitude 0 or longitude 0 for a missing
    coordinate, and nothing is written to the sidebar. *)
Theorem click_on_zero_coordinate_is_ignored (d : dict) (map_type : string) :
  truthy (dict_get d "lat" PNone) = false
  \/ truthy (dict_get d "lng" PNone) = false ->
  handle_map_click (PDict d) map_type = ([], Ok tt).
Proof.
  intros H. unfold handle_map_click.
  destruct (truthy (PDict d)); [|reflexivity]. cbn [negb].
  unfold py_get. rewrite !lift_ok_bind.
  destruct H as [-> | ->]; [reflexivity|].
  by rewrite andb_false_r.
Qed.

Lemma click_on_zero_coordinate_is_ignored_witness :
  handle_map_click (PDict {[ "lat" := fl 0.0; "lng" := fl 77.6 ]}) "heat_island"
  = ([], Ok tt).
Proof.
  refine (click_on_zero_coordinate_is_ignored _ _ _). left. reflexivity.
Defined.

Ltac find_elem := first [ reflexivity | left; find_elem | right; find_elem ].

Lemma truthy_fl q : ~ (q == 0)%Q -> truthy (fl q) = true.
Proof.
  intros H. cbn [truthy fl]. apply negb_true_iff.
  destruct (Qeq_bool q 0) eqn:E; [|reflexivity].
  by apply Qeq_bool_iff in E.
Qed.

Lemma distance_from_centre_value (lat lng : Q) :
  distance_from_centre (fl lat) (fl lng)
  = Ok (fl (Qabs (lat + - 12.972) + Qabs (lng + - 77.594))).
Proof. reflexivity. Qed.

(** X13.  For a click with non-zero coordinates, the temperature shown on
    the heat-island map is at least 28, and the PM2.5 shown on the
    air-quality map lies between 30 and 50. *)
Theorem click_estimates_are_bounded (lat lng : Q) :
  ~ (lat == 0)%Q ->
  ~ (lng == 0)%Q ->
  let c := PDict {[ "lat" := fl lat; "lng" := fl lng ]} in
  (exists e,
     (Sidebar, WWrite [Lit "**Estimated Temperature:** "; ValF ".1f" (fl e); Lit "°C"])
     ∈ (handle_map_click c "heat_island").1
     /\ (28 <= e)%Q)
  /\ (exists e,
        (Sidebar, WWrite [Lit "**Estimated PM2.5:** "; ValF ".1f" (fl e); Lit " μg/m³"])
        ∈ (handle_map_click c "air_quality").1
        /\ (30 <= e <= 50)%Q).
Proof.
  intros Hlat Hlng c. subst c.
  pose proof (Qabs_nonneg (lat + - 12.972)) as H1.
  pose proof (Qabs_nonneg (lng + - 77.594)) as H2.
  assert (Hclick : forall map_type,
    handle_map_click (PDict {[ "lat" := fl lat; "lng" := fl lng ]}) map_type
    = (sidebar_subheader "📍 Location Info";;
       sidebar_write [Lit "**Coordinates:** "; ValF ".4f" (fl lat); Lit ", ";
                      ValF ".4f" (fl lng)];;
       (if String.eqb map_type "heat_island" then
          estimated_temp ← lift (
            d ← distance_from_centre (fl lat) (fl lng);
            e ← py_mul d (PInt 50);
            py_add (PInt 28) e);
          f ← lift (fmt_float ".1f" estimated_temp);
          sidebar_write [Lit "**Estimated Temperature:** "; f; Lit "°C"]
        else if String.eqb map_type "air_quality" then
          estimated_pm25 ← lift (
            d ← distance_from_centre (fl lat) (fl lng);
            e ← py_mul d (PInt 10);
            urban_factor ← py_min (fl 1.0) e;
            g ← py_mul urban_factor (PInt 20);
            py_add (PInt 30) g);
          f ← lift (fmt_float ".1f" estimated_pm25);
          sidebar_write [Lit "**Estimated PM2.5:** "; f; Lit " μg/m³"]
        else mret tt);;
       suggest_nearby_locations (fl lat) (fl lng) map_type)).
  { intros map_type. unfold handle_map_click.
    change (truthy (PDict {[ "lat" := fl lat; "lng" := fl lng ]})) with true.
    cbn [negb].
    change (py_get (PDict {[ "lat" := fl lat; "lng" := fl lng ]}) "lat")
      with (Ok (fl lat)).
    change (py_get (PDict {[ "lat" := fl lat; "lng" := fl lng ]}) "lng")
      with (Ok (fl lng)).
    rewrite !lift_ok_bind, (truthy_fl _ Hlat), (truthy_fl _ Hlng).
    reflexivity. }
  rewrite !Hclick. cbn [String.eqb Ascii.eqb Bool.eqb].
  rewrite !distance_from_centre_value.
  set (D := (Qabs (lat + - 12.972) + Qabs (lng + - 77.594))%Q) in *.
  assert (HD : (0 <= D)%Q) by (subst D; lra).
  clearbody D. split.
  - exists (inject_Z 28 + D * inject_Z 50)%Q. split; [|unfold inject_Z; lra].
    rewrite !bind_log. cbn [sidebar_subheader sidebar_write emit_in fst snd].
    rewrite !elem_of_app, !elem_of_cons. find_elem.
  - unfold py_min, py_lt, py_cmp, fl.
    cbn [py_mul py_arith as_int as_number mbind result_bind f_mul].
    destruct (f_lt (FFin (D * inject_Z 10)) (FFin 1.0)) eqn:E.
    + apply (f_lt_below (FFin _) 1.0) in E. simpl in E. unfold inject_Z in E.
      exists (inject_Z 30 + D * inject_Z 10 * inject_Z 20)%Q.
      split; [|unfold inject_Z; lra].
      rewrite !bind_log. cbn [sidebar_subheader sidebar_write emit_in fst snd].
      rewrite !elem_of_app, !elem_of_cons. find_elem.
    + exists (inject_Z 30 + 1.0 * inject_Z 20)%Q.
      split; [|unfold inject_Z; lra].
      rewrite !bind_log. cbn [sidebar_subheader sidebar_write emit_in fst snd].
      rewrite !elem_of_app, !elem_of_cons. find_elem.
Qed.

Lemma click_estimates_are_bounded_witness :
  exists e,
    (Sidebar, WWrite [Lit "**Estimated PM2.5:** "; ValF ".1f" (fl e); Lit " μg/m³"])
    ∈ (handle_map_click (PDict {[ "lat" := fl 12.98; "lng" := fl 77.6 ]})
         "air_quality").1
    /\ (30 <= e <= 50)%Q.
Proof.
  refine (proj2 (click_estimates_are_bounded 12.98 77.6 _ _)).
  - intros H. discriminate H.
  - intros H. discriminate H.
Defined.

Lemma handle_map_click_sidebar (c : pyval) (map_type : string) :
  click c ->
  (handle_map_click c map_type).2 = Ok tt
  /\ Forall (fun e : event => e.1 = Sidebar) (handle_map_click c map_type).1.
Proof.
  intros [->|(lat & lng & ->)]; [split; [reflexivity|constructor]|].
  destruct (suggest_nearby_locations_sidebar (fl lat) (fl lng) map_type)
    as [Hs1 Hs2].
  unfold handle_map_click.
  change (truthy (PDict {[ "lat" := fl lat; "lng" := fl lng ]})) with true.
  cbn [negb].
  change (py_get (PDict {[ "lat" := fl lat; "lng" := fl lng ]}) "lat")
    with (Ok (fl lat)).
  change (py_get (PDict {[ "lat" := fl lat; "lng" := fl lng ]}) "lng")
    with (Ok (fl lng)).
  rewrite !lift_ok_bind.
  destruct (truthy (fl lat) && truthy (fl lng)); [|split; [reflexivity|constructor]].
  rewrite !distance_from_centre_value.
  set (D := (Qabs (lat + - 12.972) + Qabs (lng + - 77.594))%Q). clearbody D.
  destruct (suggest_nearby_locations (fl lat) (fl lng) map_type) as [l r].
  cbn [fst snd] in Hs1, Hs2. subst r.
  destruct (String.eqb map_type "heat_island").
  - split; [reflexivity|]. repeat (constructor; [reflexivity|]). exact Hs2.
  - destruct (String.eqb map_type "air_quality").
    + unfold py_min, py_lt, py_cmp, fl.
      cbn [py_mul py_arith as_int as_number mbind result_bind f_mul].
      destruct (f_lt (FFin (D * inject_Z 10)) (FFin 1.0));
        (split; [reflexivity|]; repeat (constructor; [reflexivity|]); exact Hs2).
    + split; [reflexivity|]. repeat (constructor; [reflexivity|]). exact Hs2.
Qed.

(** X14.  With the click [st_folium] reports (none, or two float
    coordinates), [handle_map_click] never raises and writes to the sidebar
    only, whatever the map type. *)
Theorem click_never_raises (c : pyval) (map_type : string) :
  click c ->
  (handle_map_click c map_type).2 = Ok tt
  /\ Forall (fun e : event => e.1 = Sidebar) (handle_map_click c map_type).1.
Proof. apply handle_map_click_sidebar. Qed.

Lemma click_never_raises_witness :
  (handle_map_click (PDict {[ "lat" := fl 12.98; "lng" := fl 77.6 ]})
     "air_quality").2 = Ok tt.
Proof.
  refine (proj1 (click_never_raises
                   (PDict {[ "lat" := fl 12.98; "lng" := fl 77.6 ]})
                   "air_quality" _)).
  right. exists 12.98%Q, 77.6%Q. reflexivity.
Defined.

(** ** The map types *)

Lemma shown_map_run (map_data : dict) (c : pyval) (map_type : string)
    (r : M Folium.map) (pre : list event) (m : Folium.map) :
  r = (pre, Ok m) ->
  map_data !! "last_clicked" = Some c -> click c ->
  let run :=
    (m ← r;
     emit (WFolium m 700 500);;
     last_clicked ← lift (py_getitem (PDict map_data) "last_clicked");
     if truthy last_clicked then handle_map_click last_clicked map_type
     else mret tt) in
  run.2 = Ok tt
  /\ in_container Main run.1 = in_container Main pre ++ [WFolium m 700 500].
Proof.
  intros -> Hc Hclick run. subst run.
  destruct (handle_map_click_sidebar c map_type Hclick) as [Hh1 Hh2].
  pose proof (in_container_other Main Sidebar _ ltac:(done) Hh2) as Hh3.
  rewrite (py_getitem_dict _ _ _ Hc).
  rewrite bind_run. cbn [fst snd]. rewrite bind_run. cbn [emit emit_in fst snd].
  rewrite lift_ok_bind.
  destruct (handle_map_click c map_type) as [l r].
  cbn [fst snd] in Hh1, Hh3. subst r.
  destruct (truthy c); cbn [fst snd mret M_ret].
  - split; [reflexivity|].
    change ((Main, WFolium m 700 500) :: l) with ([(Main, WFolium m 700 500)] ++ l).
    rewrite !in_container_app, Hh3. reflexivity.
  - split; [reflexivity|]. rewrite in_container_app. reflexivity.
Qed.

Ltac static_map map_data c mt Hc Hclick :=
  match goal with
  | |- (mbind _ ?r).2 = _ /\ _ =>
      let H1 := fresh in
      let H2 := fresh in
      edestruct (shown_map_run map_data c mt r _ _ eq_refl Hc Hclick) as [H1 H2];
      split; [exact H1|];
      do 2 eexists; split; [exact H2|];
      split; [|reflexivity];
      repeat split; eexists; split; [reflexivity|repeat constructor]
  end.



(** ** The trend chart of the water board *)

Lemma weekday_of_first_sunday (s : Z) :
  Pandas.weekday
    (s + ((6 - Pandas.weekday s) `mod` 7) * Pandas.usec_per_day) = 6.
Proof.
  unfold Pandas.weekday.
  rewrite Z.div_add by (unfold Pandas.usec_per_day; lia).
  generalize (s `div` Pandas.usec_per_day). intros q.
  Z.to_euclidean_division_equations. lia.
Qed.

Lemma weekday_add_weeks (t : Z) (k : Z) :
  Pandas.weekday (t + k * (7 * Pandas.usec_per_day)) = Pandas.weekday t.
Proof.
  unfold Pandas.weekday.
  replace (k * (7 * Pandas.usec_per_day)) with (7 * k * Pandas.usec_per_day)
    by lia.
  rewrite Z.div_add by (unfold Pandas.usec_per_day; lia).
  generalize (t `div` Pandas.usec_per_day). intros q.
  Z.to_euclidean_division_equations. lia.
Qed.

Lemma date_range_weekly_90_days (s e : Z) :
  s + Pandas.timedelta_days 90 <= e < s + Pandas.timedelta_days 91 ->
  exists first,
    s <= first <= s + Pandas.timedelta_days 6
    /\ Pandas.weekday first = 6
    /\ Pandas.date_range_weekly s e
       = List.map (fun k => first + Z.of_nat k * (7 * Pandas.usec_per_day))
           (seq 0 13).
Proof.
  intros H. unfold Pandas.date_range_weekly.
  pose proof (weekday_of_first_sunday s) as Hw.
  set (first := s + ((6 - Pandas.weekday s) `mod` 7) * Pandas.usec_per_day) in *.
  assert (Hr : 0 <= (6 - Pandas.weekday s) `mod` 7 < 7)
    by (apply Z.mod_pos_bound; lia).
  assert (Hf : s <= first <= s + Pandas.timedelta_days 6)
    by (unfold first, Pandas.timedelta_days, Pandas.usec_per_day in *; lia).
  exists first. split; [exact Hf|]. split; [exact Hw|].
  destruct (Z.ltb_spec e first) as [Hlt|_];
    [unfold Pandas.timedelta_days, Pandas.usec_per_day in *; lia|].
  assert (Hq : (e - first) `div` (7 * Pandas.usec_per_day) = 12).
  { symmetry. apply (Z.div_unique _ _ 12 (e - first - 12 * (7 * Pandas.usec_per_day)));
      unfold Pandas.timedelta_days, Pandas.usec_per_day in *; lia. }
  rewrite Hq. reflexivity.
Qed.

(** X16.  When the second reading of the clock is less than a day after the
    first, the trend chart of the water board has exactly 13 weekly points:
    13 Sundays, a week apart, within the last 90 days, with the two fixed
    health curves over them. *)
Theorem water_board_trend_has_13_sundays
    (now : nat -> Z) (weather_data nasa_data : option dict) :
  now 0%nat <= now 1%nat < now 0%nat + Pandas.usec_per_day ->
  exists first : Z,
    let dates :=
      List.map (fun k => first + Z.of_nat k * Pandas.timedelta_days 7)
        (seq 0 13) in
    Forall (fun t => Pandas.weekday t = 6
                     /\ now 0%nat - Pandas.timedelta_days 90 <= t <= now 1%nat)
      dates
    /\ WPlotlyChart
         {| Plotly.traces :=
              [Plotly.Scatter (PDatetime <$> dates)
                 (PInt <$> [43; 44; 45; 46; 47; 43; 44; 45; 46; 47; 43; 44; 45])
                 "Bellandur Lake" "red";
               Plotly.Scatter (PDatetime <$> dates)
                 (PInt <$> [77; 78; 79; 77; 78; 79; 77; 78; 79; 77; 78; 79; 77])
                 "Ulsoor Lake" "blue"];
            Plotly.title := Some "Lake Health Trends (90 Days)";
            Plotly.xaxis_title := Some "Date";
            Plotly.yaxis_title := Some "Health Score";
            Plotly.hlines := [] |} true
       ∈ shown (render_water_board_dashboard now weather_data nasa_data).
Proof.
  intros Hnow.
  destruct (date_range_weekly_90_days
              (now 0%nat - Pandas.timedelta_days 90) (now 1%nat))
    as (first & Hf & Hw & Hd);
    [unfold Pandas.timedelta_days, Pandas.usec_per_day in *; lia|].
  exists first. cbn zeta. split.
  - apply List.Forall_forall. intros t Ht.
    apply in_map_iff in Ht as (k & <- & Hk).
    apply in_seq in Hk.
    unfold Pandas.timedelta_days at 1.
    split; [by rewrite weekday_add_weeks|].
    unfold Pandas.timedelta_days, Pandas.usec_per_day in *. lia.
  - unfold render_water_board_dashboard. rewrite Hd.
    unfold shown.
    change (Pandas.timedelta_days 7) with (7 * Pandas.usec_per_day).
    generalize (7 * Pandas.usec_per_day). intros week.
    cbn [List.map seq length Z.of_nat].
    match goal with
    | |- _ ∈ ?l => let l' := eval vm_compute in l in change l with l'
    end.
    rewrite !elem_of_cons. find_elem.
Qed.

Lemma water_board_trend_has_13_sundays_witness :
  exists first : Z,
    Forall (fun t => Pandas.weekday t = 6
                     /\ 0 - Pandas.timedelta_days 90 <= t <= 0)
      (List.map (fun k => first + Z.of_nat k * Pandas.timedelta_days 7)
         (seq 0 13)).
Proof.
  destruct (water_board_trend_has_13_sundays (fun _ => 0) None None)
    as (first & H & _).
  - unfold Pandas.usec_per_day. lia.
  - exists first. exact H.
Defined.



(** ** The classifiers against each other *)

Lemma f_le_widen x (a b : Q) :
  (a <= b)%Q -> f_le x (FFin a) = true -> f_le x (FFin b) = true.
Proof.
  rewrite !f_le_at_most. destruct x; simpl; try tauto. lra.
Qed.

Lemma f_le_trans x y (q : Q) :
  f_le x y = true -> f_le y (FFin q) = true -> f_le x (FFin q) = true.
Proof.
  intros H1 H2. apply f_le_reading in H1. apply f_le_at_most in H2.
  apply f_le_at_most. destruct x, y; simpl in *; try tauto. lra.
Qed.

(** X18.  The dashboard and the map classify alike: for a numeric PM2.5 the
    advice of the citizens view and the circle of [add_air_quality_zones]
    are of the same category, and for a numeric health score the cell of the
    water-board table and the marker of [add_water_bodies] are. *)
Theorem dashboard_and_map_classify_alike (v : pyval) (x : pyfloat) :
  as_number v = Some x ->
  (exists c,
     shown (air_quality_advice v)
     = [WWrite [Lit "**PM2.5:** "; Val v; Lit " μg/m³"]; air_widget c]
     /\ air_zone_style v = Ok (air_marker c))
  /\ (exists c,
        color_health_score v = Ok (lake_cell c)
        /\ lake_style v = Ok (lake_marker c)).
Proof.
  intros H. split.
  - exists (air_class x). split; [|exact (air_zone_style_number _ _ H)].
    rewrite (air_quality_advice_number _ _ H). reflexivity.
  - exists (lake_class x).
    split; [exact (color_health_score_number _ _ H)|exact (lake_style_number _ _ H)].
Qed.

Lemma dashboard_and_map_classify_alike_witness :
  exists c,
    color_health_score (PInt 67) = Ok (lake_cell c)
    /\ lake_style (PInt 67) = Ok (lake_marker c).
Proof.
  refine (proj2 (dashboard_and_map_classify_alike (PInt 67) (FFin 67) _)).
  reflexivity.
Defined.

(** X19.  The marker of the measuring station is never milder than the
    circle of a zone: for the same numeric PM2.5, the category of
    [add_weather_markers] (thresholds 12 and 35) is at least as bad as the
    one of [add_air_quality_zones] (thresholds 25 and 50). *)
Theorem station_marker_is_never_milder (v : pyval) (x : pyfloat) :
  as_number v = Some x ->
  exists c1 c2,
    weather_marker_style v = Ok (air_marker c1)
    /\ air_zone_style v = Ok (air_marker c2)
    /\ (severity c2 <= severity c1)%nat.
Proof.
  intros H. exists (station_class x), (air_class x).
  split; [exact (weather_marker_style_number _ _ H)|].
  split; [exact (air_zone_style_number _ _ H)|].
  unfold station_class, air_class.
  destruct (f_le x (FFin 12)) eqn:E12.
  - rewrite (f_le_widen x 12 25 ltac:(lra) E12). cbn. lia.
  - destruct (f_le x (FFin 35)) eqn:E35.
    + rewrite (f_le_widen x 35 50 ltac:(lra) E35).
      destruct (f_le x (FFin 25)); cbn; lia.
    + destruct (f_le x (FFin 25)); [cbn; lia|].
      destruct (f_le x (FFin 50)); cbn; lia.
Qed.

Lemma station_marker_is_never_milder_witness :
  exists c1 c2,
    weather_marker_style (PInt 20) = Ok (air_marker c1)
    /\ air_zone_style (PInt 20) = Ok (air_marker c2)
    /\ (severity c2 <= severity c1)%nat.
Proof.
  refine (station_marker_is_never_milder (PInt 20) (FFin 20) _). reflexivity.
Defined.

(** X20.  A higher reading is never classified milder: of two numeric PM2.5
    values, the greater one gets a category at least as bad, on the station
    marker and on the zone circle. *)
Theorem higher_pm25_is_never_milder (v w : pyval) (x y : pyfloat) :
  as_number v = Some x ->
  as_number w = Some y ->
  f_le x y = true ->
  (exists c1 c2,
     weather_marker_style v = Ok (air_marker c1)
     /\ weather_marker_style w = Ok (air_marker c2)
     /\ (severity c1 <= severity c2)%nat)
  /\ (exists c1 c2,
        air_zone_style v = Ok (air_marker c1)
        /\ air_zone_style w = Ok (air_marker c2)
        /\ (severity c1 <= severity c2)%nat).
Proof.
  intros Hv Hw Hle. split.
  - exists (station_class x), (station_class y).
    split; [exact (weather_marker_style_number _ _ Hv)|].
    split; [exact (weather_marker_style_number _ _ Hw)|].
    unfold station_class.
    destruct (f_le y (FFin 12)) eqn:E1.
    + rewrite (f_le_trans x y 12 Hle E1). cbn. lia.
    + destruct (f_le y (FFin 35)) eqn:E2.
      * rewrite (f_le_trans x y 35 Hle E2).
        destruct (f_le x (FFin 12)); cbn; lia.
      * destruct (f_le x (FFin 12)); [cbn; lia|].
        destruct (f_le x (FFin 35)); cbn; lia.
  - exists (air_class x), (air_class y).
    split; [exact (air_zone_style_number _ _ Hv)|].
    split; [exact (air_zone_style_number _ _ Hw)|].
    unfold air_class.
    destruct (f_le y (FFin 25)) eqn:E1.
    + rewrite (f_le_trans x y 25 Hle E1). cbn. lia.
    + destruct (f_le y (FFin 50)) eqn:E2.
      * rewrite (f_le_trans x y 50 Hle E2).
        destruct (f_le x (FFin 25)); cbn; lia.
      * destruct (f_le x (FFin 25)); [cbn; lia|].
        destruct (f_le x (FFin 50)); cbn; lia.
Qed.

Lemma higher_pm25_is_never_milder_witness :
  exists c1 c2,
    air_zone_style (PInt 20) = Ok (air_marker c1)
    /\ air_zone_style (fl 55.5) = Ok (air_marker c2)
    /\ (severity c1 <= severity c2)%nat.
Proof.
  refine (proj2 (higher_pm25_is_never_milder (PInt 20) (fl 55.5)
                   (FFin 20) (FFin 55.5) _ _ _)); reflexivity.
Defined.

(** X21.  The default hot spots are drawn for no heat data at all only: a
    non-empty [heat_data] that names neither hotspots nor cooling zones
    leaves the map as it was, while an empty one gives the default layer. *)
Theorem heat_data_without_spots_draws_nothing
    (m : Folium.map) (heat_data : dict) :
  heat_data !! "hotspots" = None ->
  heat_data !! "cooling_zones" = None ->
  add_heat_island_layer m (Some heat_data)
  = if truthy (PDict heat_data) then Ok m else add_heat_island_layer m None.
Proof.
  intros Hh Hc. unfold add_heat_island_layer. cbn [bundle_truthy].
  destruct (truthy (PDict heat_data)); cbn [negb]; [|reflexivity].
  change (default ∅ (Some heat_data)) with heat_data.
  unfold dict_get. rewrite Hh, Hc. reflexivity.
Qed.

Lemma heat_data_without_spots_draws_nothing_witness :
  add_heat_island_layer (create_base_map (fl 12.9716) (fl 77.5946) 11)
    (Some {[ "source" := PStr "MODIS" ]})
  = Ok (create_base_map (fl 12.9716) (fl 77.5946) 11).
Proof.
  refine (heat_data_without_spots_draws_nothing
            (create_base_map (fl 12.9716) (fl 77.5946) 11)
            {[ "source" := PStr "MODIS" ]} _ _); reflexivity.
Defined.
